(** * Daily operations monitoring: aggregation, baselines, anomaly replay

    A shallow embedding of [build_daily_kpi.py] (the metric aggregator) and
    [detect_anomalies.py] (baseline engine, anomaly classifier and replay
    cursor), with the properties of the natural-language specification
    stated and proved over it.

    Modelling conventions.
    - A float cell is a rational or NaN: [pyfloat := option Q], [None]
      being NaN.  Sums, means and percentage changes are worked out exactly
      in [Detect] and [Kpi].  Where a rounding of binary64 decides what the
      code does, it is modelled: the classifier's comparisons with the
      thresholds are restated on IEEE doubles in [Binary64], and the average
      order value is rounded as the doubles are ([round53]).
    - A calendar day is its ordinal [Z] (days since 1970-01-01); NaT is
      [None].
    - Python exceptions are values of [exn]; a computation that may raise
      returns [result].
    - The files a script reads and writes, the wall clock and the webhook's
      answer are explicit arguments. *)

From Stdlib Require Import ZArith QArith Qround Qabs Lqa List String Ascii DecimalString.
From Stdlib Require Floats.
From stdpp Require Import base option list gmap strings sorting.

Local Open Scope Z_scope.

(** ** Exceptions and fallible computations *)

Inductive exn : Type :=
  | FileNotFoundError
  | ParserError
  | ValueError
  | TypeError
  | AttributeError
  | IndexError
  | ZeroDivisionError
  | OverflowError.

Inductive result (A : Type) : Type :=
  | Ok (a : A)
  | Raise (e : exn).
Arguments Ok {A} a.
Arguments Raise {A} e.

#[global] Instance result_ret : MRet result := fun _ a => Ok a.
#[global] Instance result_bind : MBind result := fun _ _ f r =>
  match r with
  | Ok a => f a
  | Raise e => Raise e
  end.

(** ** Float cells *)

Module PyNum.

Definition pyfloat : Type := option Q.

Definition nan : pyfloat := None.
Definition fin (q : Q) : pyfloat := Some q.
Definition of_Z (z : Z) : pyfloat := Some (inject_Z z).

(** [pd.isna] *)
Definition isna (a : pyfloat) : bool :=
  match a with
  | None => true
  | Some _ => false
  end.

Definition lift2 (op : Q -> Q -> Q) (a b : pyfloat) : pyfloat :=
  match a, b with
  | Some x, Some y => Some (op x y)
  | _, _ => None
  end.

Definition fadd : pyfloat -> pyfloat -> pyfloat := lift2 Qplus.
Definition fsub : pyfloat -> pyfloat -> pyfloat := lift2 Qminus.
Definition fmul : pyfloat -> pyfloat -> pyfloat := lift2 Qmult.

(** The quotient of two cells, for a divisor that is not zero. *)
Definition quot : pyfloat -> pyfloat -> pyfloat := lift2 Qdiv.

(** [sum] of a column slice; NaN when a value is NaN. *)
Definition fsum (xs : list pyfloat) : pyfloat := foldr fadd (fin 0) xs.

Definition fneg (a : pyfloat) : pyfloat := Qopp <$> a.
Definition fabs (a : pyfloat) : pyfloat := Qabs <$> a.

(** Comparisons: every comparison with NaN is false. *)
Definition cmp2 (op : Q -> Q -> bool) (a b : pyfloat) : bool :=
  match a, b with
  | Some x, Some y => op x y
  | _, _ => false
  end.

Definition feqb : pyfloat -> pyfloat -> bool := cmp2 Qeq_bool.
Definition fleb : pyfloat -> pyfloat -> bool := cmp2 Qle_bool.
Definition fltb : pyfloat -> pyfloat -> bool :=
  cmp2 (fun x y => negb (Qle_bool y x)).
Definition fgeb (a b : pyfloat) : bool := fleb b a.
Definition fgtb (a b : pyfloat) : bool := fltb b a.

(** Python's [a / b] on floats: a zero divisor raises. *)
Definition truediv (a b : pyfloat) : result pyfloat :=
  if feqb b (fin 0) then Raise ZeroDivisionError else Ok (quot a b).

(** Round half to even, to an integer. *)
Definition rint (q : Q) : Z :=
  let f := Qfloor q in
  let r := (q - inject_Z f)%Q in
  match (r ?= 1 # 2)%Q with
  | Lt => f
  | Gt => f + 1
  | Eq => if Z.even f then f else f + 1
  end.

(** [round(x)]: NaN raises [ValueError]. *)
Definition py_round (a : pyfloat) : result Z :=
  match a with
  | Some q => Ok (rint q)
  | None => Raise ValueError
  end.

(** The double nearest to a rational, ties to even, as a rational: what a
    cell of a CSV file becomes when it is read, and what every arithmetic
    operation on doubles returns.  The exponent range of binary64 is not
    modelled: no overflow to an infinity, no subnormal numbers. *)
Definition round53 (q : Q) : Q :=
  if Qeq_bool q 0 then 0%Q else
  let a := Qabs q in
  let l := (Z.log2 (Qnum a) - Z.log2 (Zpos (Qden a)))%Z in
  let e := if Qle_bool (2 ^ l) a then (l - 52)%Z else (l - 53)%Z in
  let v := (inject_Z (rint (a / 2 ^ e)) * 2 ^ e)%Q in
  if Qle_bool 0 q then v else (- v)%Q.

(** Python's [a / b] on two floats, past a test that [b] is not zero: the
    quotient of the two doubles, rounded. *)
Definition div64 (a b : pyfloat) : pyfloat :=
  lift2 (fun x y => round53 (round53 x / round53 y)) a b.

(** Python's [round(x, 2)] on a float: the exact value of the double is
    rounded to two decimals, ties to even; the cell is written here as that
    decimal, which is also how the double is printed. *)
Definition round2 (a : pyfloat) : pyfloat :=
  (fun q => (inject_Z (rint (round53 q * 100)) / 100)%Q) <$> a.

(** A float64 cell of a NumPy column, with the non-finite values that a
    division of two columns can leave in it. *)
Inductive npfloat : Type :=
  | NpNum (q : Q)
  | NpInf (negative : bool)
  | NpNaN.

(** NumPy's [a / b] on two columns: no exception; a zero divisor gives an
    infinity of the sign of [a], and NaN for 0 / 0. *)
Definition np_div (a b : pyfloat) : npfloat :=
  match a, b with
  | Some x, Some y =>
      if Qeq_bool y 0 then
        if Qeq_bool x 0 then NpNaN else NpInf (negb (Qle_bool 0 x))
      else NpNum (round53 (round53 x / round53 y))
  | _, _ => NpNaN
  end.

(** NumPy's [.round(2)]: multiply by 100, round to an integer, divide by
    100, each step in doubles; an infinity and NaN stay. *)
Definition np_round2 (a : npfloat) : npfloat :=
  match a with
  | NpNum q => NpNum (round53 (inject_Z (rint (round53 (q * 100))) / 100))
  | _ => a
  end.

(** [fillna(0)] on such a column: only NaN is replaced. *)
Definition np_fillna0 (a : npfloat) : npfloat :=
  match a with
  | NpNaN => NpNum 0
  | _ => a
  end.

(** [int(x)]: truncation toward zero; NaN raises [ValueError]. *)
Definition py_int (a : pyfloat) : result Z :=
  match a with
  | Some q => Ok (if Qle_bool 0 q then Qfloor q else Qceiling q)
  | None => Raise ValueError
  end.

End PyNum.
Import PyNum.

(** ** Dates, clocks and text rendering *)

Module PyText.

Local Open Scope string_scope.

(** A [datetime] value: day ordinal and second of the day. *)
Record timestamp : Type := Timestamp { ts_day : Z; ts_sec : Z }.

(** [.dt.date] *)
Definition dt_date (t : timestamp) : Z := ts_day t.

(** [str(n)] for an [int] *)
Definition str_of_Z (z : Z) : string := NilZero.string_of_int (Z.to_int z).

Definition zero_pad (width : nat) (s : string) : string :=
  String.concat "" (repeat "0" (width - String.length s)) ++ s.

(** Proleptic Gregorian date of a day ordinal: (year, month, day). *)
Definition civil_from_days (d : Z) : Z * Z * Z :=
  let z := d + 719468 in
  let era := z / 146097 in
  let doe := z - era * 146097 in
  let yoe := (doe - doe / 1460 + doe / 36524 - doe / 146096) / 365 in
  let doy := doe - (365 * yoe + yoe / 4 - yoe / 100) in
  let mp := (5 * doy + 2) / 153 in
  let day := doy - (153 * mp + 2) / 5 + 1 in
  let month := (if mp <? 10 then mp + 3 else mp - 9)%Z in
  let year := (yoe + era * 400 + (if month <=? 2 then 1 else 0))%Z in
  (year, month, day).

(** [strftime("%Y-%m-%d")] *)
Definition strftime (d : Z) : string :=
  let '(y, m, dd) := civil_from_days d in
  zero_pad 4 (str_of_Z y) ++ "-" ++ zero_pad 2 (str_of_Z m) ++ "-"
    ++ zero_pad 2 (str_of_Z dd).

(** [isoformat(timespec="seconds")] *)
Definition isoformat (t : timestamp) : string :=
  let s := ts_sec t in
  strftime (ts_day t) ++ "T" ++ zero_pad 2 (str_of_Z (s / 3600)) ++ ":"
    ++ zero_pad 2 (str_of_Z (s / 60 mod 60)) ++ ":"
    ++ zero_pad 2 (str_of_Z (s mod 60)).

(** [f"{x:.<digits>f}"] *)
Definition format_fixed (digits : nat) (a : pyfloat) : string :=
  match a with
  | None => "nan"
  | Some q =>
      let scale := 10 ^ Z.of_nat digits in
      let n := Z.abs (rint (q * inject_Z scale)) in
      (if Qle_bool 0 q then "" else "-")
        ++ str_of_Z (n / scale) ++ "." ++ zero_pad digits (str_of_Z (n mod scale))
  end.

Definition newline : string := String (ascii_of_nat 10) EmptyString.

(** ["\n".join(lines)] *)
Definition join_lines (lines : list string) : string :=
  String.concat newline lines.

End PyText.
Import PyText.

(** ** detect_anomalies.py *)

Module Detect.

Local Open Scope string_scope.

(** *** Config *)

Definition ROLLING_DAYS : nat := 7.

(** ["2017-01-12"] as a day ordinal. *)
Definition SIM_START_DATE : Z := 17178.

(** Lines 23-32 *)
Module TH.
Definition revenue_drop_medium : Q := 15 # 100.
Definition revenue_drop_high : Q := 25 # 100.
Definition orders_drop_medium : Q := 12 # 100.
Definition orders_drop_high : Q := 20 # 100.
Definition aov_drop_medium : Q := 15 # 100.
Definition aov_drop_high : Q := 25 # 100.
Definition cancel_spike_medium : Q := 60 # 100.
Definition cancel_spike_high : Q := 120 # 100.
End TH.

(** *** Helpers *)

(** Lines 37-40, the quotient taken exactly; [Binary64.pct_change] is the
    same function on doubles. *)
Definition pct_change (today baseline : pyfloat) : result pyfloat :=
  if feqb baseline (fin 0) || isna baseline then Ok (fin 0)
  else truediv (fsub today baseline) baseline.

(** The JSON document of the state file.  A value of the document is an
    integer or [null]; a document that is not an object is [JOther]. *)
Inductive jvalue : Type :=
  | JInt (z : Z)
  | JNull.

Inductive jdoc : Type :=
  | JObject (d : gmap string jvalue)
  | JOther.

Inductive state_file : Type :=
  | NoStateFile
  | Unreadable
  | Stored (j : jdoc).

(** [{"cursor": 0}] *)
Definition initial_state : jdoc := JObject {[ "cursor" := JInt 0 ]}.

(** Lines 42-49: no file, or a file that does not load, is the initial
    state. *)
Definition load_state (f : state_file) : jdoc :=
  match f with
  | NoStateFile => initial_state
  | Unreadable => initial_state
  | Stored j => j
  end.

(** Lines 51-53 *)
Definition save_state (state : gmap string jvalue) : state_file :=
  Stored (JObject state).

(** [int(state.get("cursor", 0))] *)
Definition state_cursor (state : jdoc) : result Z :=
  match state with
  | JOther => Raise AttributeError
  | JObject d =>
      match default (JInt 0) (d !! "cursor") with
      | JInt z => Ok z
      | JNull => Raise TypeError
      end
  end.

(** *** The input table *)

(** A row of [daily_ops_metrics.csv]; [date] is what
    [pd.to_datetime(..., errors="coerce")] makes of the cell. *)
Record metric_row : Type := MetricRow {
  date : option Z;
  orders_count : pyfloat;
  revenue : pyfloat;
  canceled_orders : pyfloat;
  avg_order_value : pyfloat
}.

Record frame : Type := Frame {
  columns : list string;
  rows : list metric_row
}.

Inductive data_file : Type :=
  | NoDataFile
  | Unparsable
  | Csv (df : frame).

Definition required : list string :=
  ["date"; "orders_count"; "revenue"; "canceled_orders"; "avg_order_value"].

(** Lines 59-67: the table, or the exception of a missing or malformed
    file or of missing columns. *)
Definition read_data (f : data_file) : result (list metric_row) :=
  match f with
  | NoDataFile => Raise FileNotFoundError
  | Unparsable => Raise ParserError
  | Csv df =>
      if forallb (fun c => bool_decide (c ∈ columns df)) required
      then Ok (rows df) else Raise ValueError
  end.

(** [sort_values("date")]: ascending, NaT last.  Rows of equal dates keep
    their order here. *)
Definition date_leb (a b : option Z) : bool :=
  match a, b with
  | Some x, Some y => (x <=? y)%Z
  | _, None => true
  | None, Some _ => false
  end.

Fixpoint insert_by_date (r : metric_row) (l : list metric_row) : list metric_row :=
  match l with
  | [] => [r]
  | h :: t =>
      if date_leb (date r) (date h) then r :: h :: t
      else h :: insert_by_date r t
  end.

Definition sort_values (l : list metric_row) : list metric_row :=
  foldr insert_by_date [] l.

(** *** Baseline engine *)

Inductive column : Type :=
  | Orders_count
  | Revenue
  | Canceled_orders
  | Avg_order_value.

Definition cell (c : column) (r : metric_row) : pyfloat :=
  match c with
  | Orders_count => orders_count r
  | Revenue => revenue r
  | Canceled_orders => canceled_orders r
  | Avg_order_value => avg_order_value r
  end.

(** The mean of a window: NaN when a value of the window is NaN. *)
Definition mean (xs : list pyfloat) : pyfloat :=
  quot (fsum xs) (of_Z (Z.of_nat (length xs))).

(** [.rolling(w).mean()]: position [i] holds the mean of the [w] values
    ending at [i], and NaN while fewer than [w] values are there. *)
Definition rolling_mean (w : nat) (xs : list pyfloat) : list pyfloat :=
  imap (fun i _ =>
          if (i + 1 <? w)%nat then nan
          else mean (take w (drop (i + 1 - w) xs))) xs.

(** [.shift(1)] *)
Definition shift1 (xs : list pyfloat) : list pyfloat :=
  take (length xs) (nan :: xs).

Definition base_column (c : column) (df : list metric_row) : list pyfloat :=
  shift1 (rolling_mean ROLLING_DAYS (cell c <$> df)).

Record baseline_row : Type := BaselineRow {
  today : metric_row;
  base_orders_count : pyfloat;
  base_revenue : pyfloat;
  base_canceled_orders : pyfloat;
  base_avg_order_value : pyfloat
}.

Definition base (c : column) (r : baseline_row) : pyfloat :=
  match c with
  | Orders_count => base_orders_count r
  | Revenue => base_revenue r
  | Canceled_orders => base_canceled_orders r
  | Avg_order_value => base_avg_order_value r
  end.

(** Lines 73-74 *)
Definition add_baselines (df : list metric_row) : list baseline_row :=
  let at_ (c : column) (i : nat) := default nan (base_column c df !! i) in
  imap (fun i r =>
          {| today := r;
             base_orders_count := at_ Orders_count i;
             base_revenue := at_ Revenue i;
             base_canceled_orders := at_ Canceled_orders i;
             base_avg_order_value := at_ Avg_order_value i |}) df.

(** A daily metric table: its dates are the consecutive calendar days
    from [d0] on, one row each. *)
Definition daily_from (d0 : Z) (df : list metric_row) : Prop :=
  date <$> df = Some <$> seqZ d0 (Z.of_nat (length df)).

(** The value of a column on a calendar day, when the table has a row of
    that day. *)
Definition value_on (c : column) (df : list metric_row) (day : Z)
    : option pyfloat :=
  cell c <$> List.find (fun r => bool_decide (date r = Some day)) df.

(** Lines 76-78: [dropna] on the four baseline columns. *)
Definition has_baselines (r : baseline_row) : bool :=
  negb (isna (base_orders_count r)) && negb (isna (base_revenue r))
  && negb (isna (base_canceled_orders r)) && negb (isna (base_avg_order_value r)).

(** Line 81: on or after the simulation start; NaT compares false. *)
Definition on_or_after_start (r : baseline_row) : bool :=
  match date (today r) with
  | Some d => (SIM_START_DATE <=? d)%Z
  | None => false
  end.

(** Lines 69-81 *)
Definition candidates_of (table : list metric_row) : list baseline_row :=
  let df := sort_values table in
  let df := add_baselines df in
  filter (fun r => on_or_after_start r) (filter (fun r => has_baselines r) df).

(** The replay state as the data model types it: a stored cursor is a
    non-negative integer. *)
Definition replay_state_ok (f : state_file) : Prop :=
  forall d c, f = Stored (JObject d) -> d !! "cursor" = Some (JInt c) -> (0 <= c)%Z.

(** [candidates.iloc[cursor]] for a Python [int]. *)
Definition iloc {A : Type} (l : list A) (c : Z) : result A :=
  let n := Z.of_nat (length l) in
  let i := (if c <? 0 then c + n else c)%Z in
  if ((i <? 0) || (n <=? i))%Z then Raise IndexError
  else match l !! Z.to_nat i with
       | Some r => Ok r
       | None => Raise IndexError
       end.

(** *** Anomaly classifier *)

Inductive metric : Type :=
  | M_revenue
  | M_orders
  | M_avg_order_value
  | M_canceled_orders.

Inductive direction : Type :=
  | Down
  | Up.

Inductive severity : Type :=
  | Medium
  | High.

Record signal : Type := Signal {
  sig_metric : metric;
  sig_direction : direction;
  sig_severity : severity;
  sig_details : string
}.

#[global] Instance metric_eq_dec : EqDecision metric.
Proof. solve_decision. Defined.

(** The signals of one metric in a signal list. *)
Definition signals_of (m : metric) (l : list signal) : list signal :=
  filter (fun s => sig_metric s = m) l.

Definition metric_str (m : metric) : string :=
  match m with
  | M_revenue => "revenue"
  | M_orders => "orders"
  | M_avg_order_value => "avg_order_value"
  | M_canceled_orders => "canceled_orders"
  end.

Definition direction_str (d : direction) : string :=
  match d with
  | Down => "down"
  | Up => "up"
  end.

Definition severity_str (v : severity) : string :=
  match v with
  | Medium => "medium"
  | High => "high"
  end.

Definition vs_avg : string := "% vs " ++ str_of_Z (Z.of_nat ROLLING_DAYS) ++ "-day avg".

(** The three drop rules (lines 98-135) share this shape.  The change and
    the thresholds are exact numbers here; which side of a threshold a
    rounded change falls on is settled by [Binary64.drop_rule], on
    doubles. *)
Definition drop_rule (m : metric) (label : string) (medium high : Q)
    (change : pyfloat) : result (list signal) :=
  if fleb change (fneg (fin medium)) then
    let sev := if fgeb (fabs change) (fin high) then High else Medium in
    pc ← py_round (fmul change (fin 100));
    Ok [ {| sig_metric := m; sig_direction := Down; sig_severity := sev;
            sig_details := label ++ " " ++ str_of_Z pc ++ vs_avg |} ]
  else Ok [].

(** The spike rule (lines 137-148), on exact numbers as well;
    [Binary64.spike_rule] is the rule on doubles. *)
Definition spike_rule (change : pyfloat) : result (list signal) :=
  if fgeb change (fin TH.cancel_spike_medium) then
    let sev := if fgeb change (fin TH.cancel_spike_high) then High else Medium in
    pc ← py_round (fmul change (fin 100));
    Ok [ {| sig_metric := M_canceled_orders; sig_direction := Up;
            sig_severity := sev;
            sig_details := "Cancellations +" ++ str_of_Z pc ++ vs_avg |} ]
  else Ok [].

(** Lines 96-148: the signal list of one row, in the fixed order revenue,
    orders, AOV, cancellations. *)
Definition detect_signals (row : baseline_row) : result (list signal) :=
  rev_change ← pct_change (revenue (today row)) (base_revenue row);
  s_rev ← drop_rule M_revenue "Revenue"
             TH.revenue_drop_medium TH.revenue_drop_high rev_change;
  ord_change ← pct_change (orders_count (today row)) (base_orders_count row);
  s_ord ← drop_rule M_orders "Orders"
             TH.orders_drop_medium TH.orders_drop_high ord_change;
  aov_change ← pct_change (avg_order_value (today row)) (base_avg_order_value row);
  s_aov ← drop_rule M_avg_order_value "AOV"
             TH.aov_drop_medium TH.aov_drop_high aov_change;
  can_change ← pct_change (canceled_orders (today row)) (base_canceled_orders row);
  s_can ← spike_rule can_change;
  Ok (List.app s_rev (List.app s_ord (List.app s_aov s_can))).

Inductive status : Type :=
  | Normal
  | Anomaly_detected.

Definition status_str (s : status) : string :=
  match s with
  | Normal => "normal"
  | Anomaly_detected => "anomaly_detected"
  end.

(** Line 150 *)
Definition status_of (signals : list signal) : status :=
  match signals with
  | [] => Normal
  | _ => Anomaly_detected
  end.

Definition signal_line (s : signal) : string :=
  "- " ++ metric_str (sig_metric s) ++ " (" ++ direction_str (sig_direction s)
    ++ ", " ++ severity_str (sig_severity s) ++ "): " ++ sig_details s.

(** Lines 152-161 *)
Definition summary_lines (date_str : string) (st : status)
    (row : baseline_row) (signals : list signal) : result (list string) :=
  let t := today row in
  ord_int ← py_int (orders_count t);
  can_int ← py_int (canceled_orders t);
  let head :=
    [ "Date: " ++ date_str ++ " | Status: " ++ status_str st;
      "Orders: " ++ str_of_Z ord_int
        ++ " (avg " ++ format_fixed 1 (base_orders_count row)
        ++ ") | Revenue: " ++ format_fixed 2 (revenue t)
        ++ " (avg " ++ format_fixed 2 (base_revenue row) ++ ")";
      "Canceled: " ++ str_of_Z can_int
        ++ " (avg " ++ format_fixed 1 (base_canceled_orders row)
        ++ ") | AOV: " ++ format_fixed 2 (avg_order_value t)
        ++ " (avg " ++ format_fixed 2 (base_avg_order_value row) ++ ")" ] in
  let tail :=
    match signals with
    | [] => [ "Signals: none" ]
    | _ => "Signals:" :: (signal_line <$> signals)
    end in
  Ok (List.app head tail).

Record payload : Type := Payload {
  run_time : string;
  sim_cursor : Z;
  p_date : string;
  p_status : status;
  signals_count : nat;
  signals : list signal;
  summary : string
}.

(** *** Main *)

(** What one invocation finds outside the process. *)
Record world : Type := World {
  data : data_file;
  state : state_file
}.

Inductive post_result : Type :=
  | Responded (status_code : Z)
  | PostRaised (msg : string).

Record env : Type := Env {
  clock : timestamp;
  webhook : post_result
}.

Inductive event : Type :=
  | Printed_payload (p : payload)
  | Posted (p : payload)
  | Printed_webhook_status (status_code : Z)
  | Printed_webhook_failed (msg : string).

(** What lines 59-171 leave in scope when they do not raise. *)
Record evaluation : Type := Evaluation {
  ev_row : baseline_row;
  ev_state : gmap string jvalue;
  ev_cursor : Z;
  ev_payload : payload
}.

(** [state["cursor"] = ...] needs the loaded document to be an object,
    which [state_cursor] has checked before. *)
Definition state_dict (state : jdoc) : gmap string jvalue :=
  match state with
  | JObject d => d
  | JOther => ∅
  end.

(** Line 90: past the last candidate the cursor goes back to 0. *)
Definition wrap (n : nat) (cursor : Z) : Z :=
  (if Z.of_nat n <=? cursor then 0 else cursor)%Z.

(** Lines 163-171 *)
Definition make_payload (now : timestamp) (cursor : Z) (date_str : string)
    (signals : list signal) (lines : list string) : payload :=
  {| run_time := isoformat now;
     sim_cursor := cursor;
     p_date := date_str;
     p_status := status_of signals;
     signals_count := length signals;
     signals := signals;
     summary := join_lines lines |}.

(** Lines 59-171 *)
Definition evaluate (now : timestamp) (w : world) : result evaluation :=
  table ← read_data (data w);
  let candidates := candidates_of table in
  if bool_decide (candidates = []) then Raise ValueError else
  let state := load_state (state w) in
  cursor ← state_cursor state;
  let cursor := wrap (length candidates) cursor in
  row ← iloc candidates cursor;
  date_str ← match date (today row) with
             | Some d => Ok (strftime d)
             | None => Raise ValueError
             end;
  signals ← detect_signals row;
  lines ← summary_lines date_str (status_of signals) row signals;
  Ok {| ev_row := row;
        ev_state := state_dict state;
        ev_cursor := cursor;
        ev_payload := make_payload now cursor date_str signals lines |}.

(** Lines 173-181: the payload goes to stdout and to the webhook; whatever
    the POST raises is caught and printed. *)
Definition deliver (answer : post_result) (p : payload) : list event :=
  [ Printed_payload p; Posted p;
    match answer with
    | Responded code => Printed_webhook_status code
    | PostRaised msg => Printed_webhook_failed msg
    end ].

(** Lines 183-185 *)
Definition persist (ev : evaluation) : state_file :=
  save_state (<[ "cursor" := JInt (ev_cursor ev + 1) ]> (ev_state ev)).

Inductive outcome : Type :=
  | Returned
  | Raised (e : exn)
  | Killed.

Record run : Type := Run {
  run_outcome : outcome;
  run_world : world;
  run_events : list event
}.

(** The payloads an invocation handed to the webhook. *)
Definition posted (r : run) : list payload :=
  omap (fun ev => match ev with Posted p => Some p | _ => None end)
       (run_events r).

Definition main (e : env) (w : world) : run :=
  match evaluate (clock e) w with
  | Raise x => {| run_outcome := Raised x; run_world := w; run_events := [] |}
  | Ok ev =>
      {| run_outcome := Returned;
         run_world := {| data := data w; state := persist ev |};
         run_events := deliver (webhook e) (ev_payload ev) |}
  end.

(** The same invocation when the process is killed after delivery and
    before line 184. *)
Definition main_killed_before_save (e : env) (w : world) : run :=
  match evaluate (clock e) w with
  | Raise x => {| run_outcome := Raised x; run_world := w; run_events := [] |}
  | Ok ev =>
      {| run_outcome := Killed;
         run_world := w;
         run_events := deliver (webhook e) (ev_payload ev) |}
  end.

End Detect.

(** ** The classifier on binary64

    [float(row[...])] is an IEEE 754 double, and lines 37-40 and 98-148
    subtract, divide and compare doubles.  Here these lines are over Rocq's
    primitive floats, which are the machine's doubles.  A decimal literal
    denotes the nearest double, in Python as here. *)

Module Binary64.

Import Floats.PrimFloat Floats.SpecFloat Floats.FloatOps.
#[local] Set Warnings "-inexact-float".

Local Open Scope string_scope.

(** Lines 23-32 *)
Module TH.
Definition revenue_drop_medium : float := 0.15.
Definition revenue_drop_high : float := 0.25.
Definition orders_drop_medium : float := 0.12.
Definition orders_drop_high : float := 0.20.
Definition aov_drop_medium : float := 0.15.
Definition aov_drop_high : float := 0.25.
Definition cancel_spike_medium : float := 0.60.
Definition cancel_spike_high : float := 1.20.
End TH.

(** The number a finite double stands for. *)
Definition value (x : float) : option Q :=
  match Prim2SF x with
  | S754_zero _ => Some 0%Q
  | S754_finite s m e =>
      Some ((if s then -1 else 1) * inject_Z (Zpos m) * 2 ^ e)%Q
  | _ => None
  end.

(** [round(x)] on a float: the nearest integer, ties to even; NaN raises
    [ValueError] and an infinity [OverflowError]. *)
Definition py_round (x : float) : result Z :=
  match Prim2SF x with
  | S754_nan => Raise ValueError
  | S754_infinity _ => Raise OverflowError
  | S754_zero _ => Ok 0%Z
  | S754_finite s m e =>
      Ok (rint ((if s then -1 else 1) * inject_Z (Zpos m) * 2 ^ e))
  end.

(** The double [q] denotes. *)
Definition denotes (x : float) (q : Q) : Prop :=
  exists v, value x = Some v /\ (v == q)%Q.

(** [change*100] *)
Definition percent (change : float) : float := mul change 100.

(** Lines 37-40 *)
Definition pct_change (today baseline : float) : result float :=
  if (eqb baseline 0 || is_nan baseline)%bool then Ok 0%float
  else if eqb baseline 0 then Raise ZeroDivisionError
  else Ok (div (sub today baseline) baseline).

(** The shape the three drop rules share (lines 101-109, 114-122,
    127-135). *)
Definition drop_rule (m : Detect.metric) (label : string)
    (medium high change : float) : result (list Detect.signal) :=
  if leb change (opp medium) then
    let sev := if leb high (abs change) then Detect.High else Detect.Medium in
    pc ← py_round (percent change);
    Ok [ {| Detect.sig_metric := m; Detect.sig_direction := Detect.Down;
            Detect.sig_severity := sev;
            Detect.sig_details :=
              label ++ " " ++ str_of_Z pc ++ Detect.vs_avg |} ]
  else Ok [].

(** Lines 140-148 *)
Definition spike_rule (change : float) : result (list Detect.signal) :=
  if leb TH.cancel_spike_medium change then
    let sev := if leb TH.cancel_spike_high change
               then Detect.High else Detect.Medium in
    pc ← py_round (percent change);
    Ok [ {| Detect.sig_metric := Detect.M_canceled_orders;
            Detect.sig_direction := Detect.Up;
            Detect.sig_severity := sev;
            Detect.sig_details :=
              "Cancellations +" ++ str_of_Z pc ++ Detect.vs_avg |} ]
  else Ok [].




Definition cancel_rule (can_today can_base : float)
    : result (list Detect.signal) :=
  can_change ← pct_change can_today can_base;
  spike_rule can_change.

(** *** Sample cells *)




(** Quotients of two integers, as the machine divides them. *)
Definition quotients : list (Q * float) :=
  [ (109 # 100, div 109 100); (15 # 100, div 15 100); (1 # 3, div 1 3);
    (2 # 3, div 2 3); (1 # 10, div 1 10); (545 # 1000, div 545 1000);
    (7 # 1, div 7 1); (1 # 1024, div 1 1024);
    (900000000000001 # 6000000000000007,
     div 900000000000001 6000000000000007);
    (4503599627370497 # 4503599627370496,
     div 4503599627370497 4503599627370496);
    (9007199254740991 # 3, div 9007199254740991 3);
    ((-85034) # 100040, div (-85034) 100040) ]%float.

Definition two_hundred_fifty : float := 250.
Definition largest : float := 0x1.fffffffffffffp+1023.
Definition smallest : float := 0x1p-1074.

End Binary64.

(** ** build_daily_kpi.py *)

Module Kpi.

Local Open Scope string_scope.

(** *** Input records *)

(** A row of the orders file as lines 23-36 hold it.  An empty [order_id]
    cell is NaN ([None]).  [order_purchase_timestamp] is the cell of the
    column that [pd.to_datetime(..., errors="coerce")] returned (line 33):
    NaT ([None]) for an empty cell and for a text that does not parse in the
    format pandas took for the column; that format is inferred from the
    column, so the field describes the row within its file, not the text of
    its cell alone. *)
Record order : Type := Order {
  order_id : option string;
  order_status : string;
  order_purchase_timestamp : option timestamp
}.

(** The rows of the two other files, their numeric columns read as float64;
    an empty cell is NaN. *)
Record item : Type := Item {
  item_order_id : option string;
  price : pyfloat;
  freight_value : pyfloat
}.

Record payment : Type := Payment {
  payment_order_id : option string;
  payment_value : pyfloat
}.

(** Line 36 *)
Definition purchase_date (o : order) : option Z :=
  dt_date <$> order_purchase_timestamp o.

(** Line 39: [dropna(subset=["order_purchase_timestamp"])] *)
Definition dropna_timestamp (orders : list order) : list order :=
  filter (fun o => is_Some (order_purchase_timestamp o)) orders.

Definition fillna0 (a : pyfloat) : pyfloat :=
  match a with
  | None => fin 0
  | Some q => Some q
  end.

(** [left.merge(orders[["order_id", "purchase_date"]], on="order_id",
    how="inner")]: one row for every pair of a left row and an order of the
    same id, carrying the order's purchase date.  pandas matches an empty
    key with an empty key. *)
Definition merge_inner {A : Type} (key : A -> option string) (left : list A)
    (orders : list order) : list (A * Z) :=
  flat_map (fun a =>
    flat_map (fun o =>
      if bool_decide (key a = order_id o) then
        match purchase_date o with
        | Some d => [(a, d)]
        | None => []
        end
      else []) orders) left.

(** The keys of a [groupby]: distinct, ascending. *)
Fixpoint insert_key (d : Z) (l : list Z) : list Z :=
  match l with
  | [] => [d]
  | h :: t =>
      if (d <? h)%Z then d :: h :: t
      else if (d =? h)%Z then h :: t
      else h :: insert_key d t
  end.

Definition group_keys (l : list Z) : list Z := foldr insert_key [] l.

(** [groupby(key)[value].sum()]; a NaN value is skipped. *)
Definition group_sum (keyed : list (pyfloat * Z)) : list (Z * pyfloat) :=
  (fun d =>
     (d, fsum (fillna0 <$> (fst <$> filter (fun kv => bool_decide (snd kv = d)) keyed))))
    <$> group_keys (snd <$> keyed).

(** Line 66 *)
Definition item_revenue (i : item) : pyfloat :=
  fadd (fillna0 (price i)) (fillna0 (freight_value i)).

(** Lines 59-72 *)
Definition daily_revenue_items (items : list item) (orders : list order)
    : list (Z * pyfloat) :=
  group_sum ((fun ad => (item_revenue (fst ad), snd ad)) <$> merge_inner item_order_id items orders).

(** Lines 93-105 *)
Definition daily_revenue_payments (payments : list payment) (orders : list order)
    : list (Z * pyfloat) :=
  group_sum ((fun ad => (payment_value (fst ad), snd ad)) <$> merge_inner payment_order_id payments orders).

Definition is_canceled (o : order) : bool :=
  bool_decide (order_status o ∈ ["canceled"; "unavailable"]).

(** *** The daily frame *)

(** A row of the frame [daily]; [A] is what a cell of the avg_order_value
    column can hold. *)
Record row (A : Type) : Type := DailyRow {
  date : Z;
  orders_count : pyfloat;
  canceled_orders : pyfloat;
  revenue_items : pyfloat;
  (** NaN throughout when the frame has no such column *)
  revenue_payments : pyfloat;
  revenue : pyfloat;
  avg_order_value : A
}.
Arguments DailyRow {A} _ _ _ _ _ _ _.
Arguments date {A} _.
Arguments orders_count {A} _.
Arguments canceled_orders {A} _.
Arguments revenue_items {A} _.
Arguments revenue_payments {A} _.
Arguments revenue {A} _.
Arguments avg_order_value {A} _.

(** Up to line 164 the column comes from a division of two columns (line
    125); from line 167 on it holds what Python's [round] returned or 0. *)
Abbreviation frame_row := (row npfloat).
Abbreviation daily_row := (row pyfloat).

Definition lookup_day (d : Z) (l : list (Z * pyfloat)) : pyfloat :=
  match List.find (fun kv => (fst kv =? d)%Z) l with
  | Some kv => snd kv
  | None => nan
  end.

(** Lines 78-85 and 112-125: one row per purchase date, left-merged with
    the revenue aggregates, official revenue and its first AOV.  [nunique]
    leaves the empty ids out. *)
Definition combine (orders : list order) (rev_items : list (Z * pyfloat))
    (rev_payments : option (list (Z * pyfloat))) : list frame_row :=
  (fun d =>
     let group := filter (fun o => bool_decide (purchase_date o = Some d)) orders in
     let count := of_Z (Z.of_nat (length (remove_dups (omap order_id group)))) in
     let canceled := of_Z (Z.of_nat (length (filter (fun o => is_canceled o) group))) in
     let r_items := lookup_day d rev_items in
     let r_pay := match rev_payments with
                  | Some p => lookup_day d p
                  | None => nan
                  end in
     let rev := match rev_payments with
                | Some _ => fillna0 r_pay
                | None => fillna0 r_items
                end in
     {| date := d; orders_count := count; canceled_orders := canceled;
        revenue_items := r_items; revenue_payments := r_pay; revenue := rev;
        avg_order_value := np_round2 (np_div rev count) |} : frame_row)
    <$> group_keys (omap purchase_date orders).

(** Lines 128-131: the dates become ISO strings and the frame is sorted on
    them; on four-digit years that is the order of the days. *)
Fixpoint insert_row (r : frame_row) (l : list frame_row) : list frame_row :=
  match l with
  | [] => [r]
  | h :: t =>
      if (date r <=? date h)%Z then r :: h :: t else h :: insert_row r t
  end.

Definition sort_values (l : list frame_row) : list frame_row :=
  foldr insert_row [] l.

Definition date_min (l : list frame_row) : option Z :=
  foldr (fun r acc => Some (from_option (Z.min (date r)) (date r) acc)) None l.

Definition date_max (l : list frame_row) : option Z :=
  foldr (fun r acc => Some (from_option (Z.max (date r)) (date r) acc)) None l.

(** [pd.date_range(start, end, freq="D")] *)
Definition date_range (lo hi : Z) : list Z := seqZ lo (hi - lo + 1).

Definition nan_row (d : Z) : frame_row :=
  {| date := d; orders_count := nan; canceled_orders := nan;
     revenue_items := nan; revenue_payments := nan; revenue := nan;
     avg_order_value := NpNaN |}.

(** Lines 148-153 *)
Definition reindex (full_range : list Z) (daily : list frame_row) : list frame_row :=
  (fun d => default (nan_row d) (List.find (fun r => (date r =? d)%Z) daily))
    <$> full_range.

(** Lines 156-164 *)
Definition fill_zeros (has_payments : bool) (r : frame_row) : frame_row :=
  {| date := date r;
     orders_count := fillna0 (orders_count r);
     canceled_orders := fillna0 (canceled_orders r);
     revenue_items := fillna0 (revenue_items r);
     revenue_payments :=
       if has_payments then fillna0 (revenue_payments r) else revenue_payments r;
     revenue := fillna0 (revenue r);
     avg_order_value := np_fillna0 (avg_order_value r) |}.

(** Lines 167-171: the column is overwritten, row by row, with Python
    floats. *)
Definition recompute_aov (r : frame_row) : daily_row :=
  {| date := date r;
     orders_count := orders_count r;
     canceled_orders := canceled_orders r;
     revenue_items := revenue_items r;
     revenue_payments := revenue_payments r;
     revenue := revenue r;
     avg_order_value :=
       if fgtb (orders_count r) (fin 0)
       then round2 (div64 (revenue r) (orders_count r))
       else fin 0 |}.

(** The purchase days observed in the orders: those of the parseable
    timestamps. *)
Definition purchase_days (orders : list order) : list Z :=
  omap purchase_date orders.

(** A zero-activity row. *)
Definition zero_activity (r : daily_row) : Prop :=
  orders_count r = fin 0 /\ revenue r = fin 0
  /\ canceled_orders r = fin 0 /\ avg_order_value r = fin 0.

Record kpi_table : Type := KpiTable {
  cols : list string;
  out_rows : list daily_row
}.

(** The whole script, from the three input files (a missing file is
    [None]) to the exported table. *)
Definition build_daily_kpi (orders_file : option (list order))
    (items_file : option (list item))
    (payments_file : option (list payment)) : result kpi_table :=
  match orders_file with
  | None => Raise FileNotFoundError
  | Some orders =>
      let orders := dropna_timestamp orders in
      if bool_decide (orders = []) then Raise ValueError else
      match items_file with
      | None => Raise FileNotFoundError
      | Some items =>
          let has_payments := bool_decide (is_Some payments_file) in
          let rev_items := daily_revenue_items items orders in
          let rev_payments :=
            (fun p => daily_revenue_payments p orders) <$> payments_file in
          let daily := sort_values (combine orders rev_items rev_payments) in
          match date_min daily, date_max daily with
          | Some lo, Some hi =>
              let daily := reindex (date_range lo hi) daily in
              let daily := fill_zeros has_payments <$> daily in
              let daily := recompute_aov <$> daily in
              Ok {| cols :=
                      List.app
                        ["date"; "orders_count"; "revenue"; "canceled_orders";
                         "avg_order_value"]
                        (if has_payments
                         then ["revenue_items"; "revenue_payments"] else []);
                    out_rows := daily |}
          | _, _ => Raise ValueError
          end
      end
  end.

End Kpi.

(** ** Sample inputs *)

Module Samples.

Import Detect.

Definition day_row (d o : Z) : metric_row :=
  {| date := Some d; orders_count := of_Z o; revenue := of_Z (10 * o);
     canceled_orders := of_Z 1; avg_order_value := of_Z 10 |}.

(** Ten days of 100 orders from 2017-01-02 on, then 80 orders on
    2017-01-12. *)
Definition steady_then_drop : list metric_row :=
  List.app ((fun i => day_row (17168 + i) 100) <$> seqZ 0 10) [day_row 17178 80].

Definition sample_world (f : state_file) : world :=
  {| data := Csv (Frame required steady_then_drop); state := f |}.

Definition cursor_file (c : Z) : state_file :=
  Stored (JObject {[ "cursor"%string := JInt c ]}).

Definition one_o_clock : timestamp := Timestamp 20000 3600.
Definition a_second_later : timestamp := Timestamp 20000 3601.

(** The one eligible day of [steady_then_drop], with its baselines. *)
Definition drop_day : baseline_row :=
  {| today := day_row 17178 80;
     base_orders_count := fin (700 # 7); base_revenue := fin (7000 # 7);
     base_canceled_orders := fin (7 # 7); base_avg_order_value := fin (70 # 7) |}.

(** Revenue 85 against a baseline of 100. *)
Definition revenue_85_of_100 : baseline_row :=
  {| today := {| date := Some 17178; orders_count := of_Z 10;
                 revenue := fin 85; canceled_orders := of_Z 0;
                 avg_order_value := fin (85 # 10) |};
     base_orders_count := of_Z 10; base_revenue := fin 100;
     base_canceled_orders := of_Z 0; base_avg_order_value := of_Z 10 |}.

(** Orders on day 100 (two, one of them twice in the file) and on day 103,
    one order without a parseable timestamp, and their items. *)
Definition some_orders : list Kpi.order :=
  [ Kpi.Order (Some "a") "delivered" (Some (Timestamp 100 5));
    Kpi.Order (Some "b") "canceled" (Some (Timestamp 103 5));
    Kpi.Order (Some "c") "delivered" None;
    Kpi.Order (Some "d") "unavailable" (Some (Timestamp 100 7));
    Kpi.Order (Some "a") "delivered" (Some (Timestamp 100 5)) ]%string.

(** An order whose order_id cell is empty, and an item row whose one is. *)
Definition order_without_id : list Kpi.order :=
  [ Kpi.Order None "delivered" (Some (Timestamp 100 5)) ]%string.

Definition item_without_id : list Kpi.item :=
  [ Kpi.Item None (fin 10) (fin 0) ].

(** Two orders of one day and a single item of 1.09. *)
Definition two_orders : list Kpi.order :=
  [ Kpi.Order (Some "a") "delivered" (Some (Timestamp 100 5));
    Kpi.Order (Some "b") "delivered" (Some (Timestamp 100 9)) ]%string.

Definition one_item : list Kpi.item :=
  [ Kpi.Item (Some "a") (fin (109 # 100)) (fin 0) ]%string.

Definition some_items : list Kpi.item :=
  [ Kpi.Item (Some "a") (fin 10) (fin (5 # 2));
    Kpi.Item (Some "b") nan (fin (1 # 3));
    Kpi.Item (Some "zz") (fin 1) (fin 1);
    Kpi.Item (Some "c") (fin 1) (fin 1) ]%string.

End Samples.

(** ** The order of the sorted table *)

Module Ordering.

(** Two rows in the order [sort_values("date")] puts them in. *)
Definition date_order (a b : Detect.metric_row) : Prop :=
  Detect.date_leb (Detect.date a) (Detect.date b) = true.

End Ordering.

(** ** Successive invocations *)

Module Cron.

Import Detect.






End Cron.

(** ** run_service.py *)

Module Service.

Local Open Scope string_scope.

(** Line 11: [os.environ.get("OPS_AGENT_TOKEN", "kiren-ops-123")] *)
Definition TOKEN (environ : gmap string string) : string :=
  default "kiren-ops-123" (environ !! "OPS_AGENT_TOKEN").

(** What [subprocess.run(..., capture_output=True, text=True, timeout=120)]
    gives: the finished process, or [TimeoutExpired]. *)
Record completed_process : Type := CompletedProcess {
  returncode : Z;
  stdout : string;
  stderr : string
}.

Inductive subprocess_result : Type :=
  | Completed (p : completed_process)
  | TimeoutExpired.

Fixpoint drop_chars (k : nat) (s : string) : string :=
  match k, s with
  | O, _ => s
  | S _, EmptyString => EmptyString
  | S k', String _ t => drop_chars k' t
  end.

(** [s[-n:]] for a positive [n] *)
Definition last_chars (n : nat) (s : string) : string :=
  drop_chars (String.length s - n) s.

Inductive body : Type :=
  | B_ok
  | B_unauthorized
  | B_report (exit_code : Z) (out err : string).

(** An answer of the application: a status with its JSON body, or the
    exception the view function let through. *)
Inductive response : Type :=
  | Response (status : Z) (b : body)
  | Unhandled.

(** Lines 13-15 *)
Definition health : response := Response 200 B_ok.

Section Run.

(** The files the script works on, and the script as the subprocess sees
    it. *)
Context {files : Type}.
Variable script : files -> subprocess_result * files.

(** Lines 17-34.  [header] is the value of the request's [X-OPS-TOKEN]
    header, if it has one. *)
Definition run (environ : gmap string string) (header : option string)
    (w : files) : response * files :=
  if negb (String.eqb (default "" header) (TOKEN environ))
  then (Response 401 B_unauthorized, w)
  else
    match script w with
    | (Completed p, w') =>
        (Response 200
           (B_report (returncode p) (last_chars 4000 (stdout p))
              (last_chars 4000 (stderr p))), w')
    | (TimeoutExpired, w') => (Unhandled, w')
    end.

End Run.

End Service.

(** ** The records behind one day of the KPI table *)

Module Daily.

Import Kpi.

(** The orders purchased on day [d]: the group of lines 78-85. *)
Definition orders_on (d : Z) (orders : list order) : list order :=
  filter (fun o => bool_decide (purchase_date o = Some d)) orders.

(** The joined item rows of lines 59-66, each with its revenue and the
    purchase date of its order; the joined payment rows of lines 95-99. *)
Definition keyed_items (items : list item) (orders : list order)
    : list (pyfloat * Z) :=
  (fun ad => (item_revenue (fst ad), snd ad))
    <$> merge_inner item_order_id items orders.

Definition keyed_payments (payments : list payment) (orders : list order)
    : list (pyfloat * Z) :=
  (fun ad => (payment_value (fst ad), snd ad))
    <$> merge_inner payment_order_id payments orders.

(** The sum a [groupby(...).sum()] forms for day [d], and the sum over all
    rows. *)
Definition day_total (keyed : list (pyfloat * Z)) (d : Z) : pyfloat :=
  fsum (fillna0 <$> (fst <$> filter (fun kv => bool_decide (snd kv = d)) keyed)).




End Daily.

(** ** More sample inputs *)

Module MoreSamples.

Import Detect.

(** Five cancellations against a baseline of two. *)
Definition cancellations_5_of_2 : baseline_row :=
  {| today := {| date := Some 17180; orders_count := of_Z 50;
                 revenue := fin 500; canceled_orders := of_Z 5;
                 avg_order_value := fin 10 |};
     base_orders_count := of_Z 50; base_revenue := fin 500;
     base_canceled_orders := of_Z 2; base_avg_order_value := of_Z 10 |}.

(** A hundred cancellations after a week without any, and no revenue cell. *)
Definition cancellations_from_none : baseline_row :=
  {| today := {| date := Some 17180; orders_count := of_Z 50;
                 revenue := nan; canceled_orders := of_Z 100;
                 avg_order_value := fin 10 |};
     base_orders_count := of_Z 50; base_revenue := fin 500;
     base_canceled_orders := of_Z 0; base_avg_order_value := of_Z 10 |}.







End MoreSamples.

(** ** From the aggregator to the detector *)

Module Pipeline.




End Pipeline.

(** * Properties *)

Import Detect.

(** ** Float cells *)

Section Cells.

Lemma feqb_zero_true (b : pyfloat) :
  feqb b (fin 0) = true <-> exists q, b = Some q /\ (q == 0)%Q.
Proof.
  destruct b as [q|]; simpl.
  - rewrite Qeq_bool_iff. split; [eauto | intros (q' & [= <-] & H); exact H].
  - split; [discriminate | intros (q & [=] & _)].
Qed.

Lemma feqb_zero_false (q : Q) : ~ (q == 0)%Q -> feqb (Some q) (fin 0) = false.
Proof.
  intros H. destruct (feqb (Some q) (fin 0)) eqn:E; [|reflexivity].
  apply feqb_zero_true in E as (q' & [= <-] & E). contradiction.
Qed.

Lemma fleb_false (x y : Q) : fleb (Some x) (Some y) = false <-> (y < x)%Q.
Proof.
  unfold fleb, cmp2. split; intros H.
  - apply Qnot_le_lt. intros L. apply Qle_bool_iff in L. congruence.
  - destruct (Qle_bool x y) eqn:E; [|reflexivity].
    apply Qle_bool_iff in E. lra.
Qed.

End Cells.

(** ** Percentage change *)

Section PctChange.

Implicit Types (today baseline : pyfloat).

Lemma pct_change_zero today (q : Q) :
  (q == 0)%Q -> pct_change today (Some q) = Ok (fin 0).
Proof.
  intros Hq. unfold pct_change.
  replace (feqb (Some q) (fin 0)) with true; [reflexivity|].
  symmetry. apply feqb_zero_true. eauto.
Qed.

Lemma pct_change_nan today : pct_change today nan = Ok (fin 0).
Proof. reflexivity. Qed.

(** Past the guard the divisor is not zero, and [truediv] returns. *)
Lemma pct_change_quotient today (q : Q) :
  ~ (q == 0)%Q ->
  pct_change today (Some q) = truediv (fsub today (Some q)) (Some q)
  /\ truediv (fsub today (Some q)) (Some q)
     = Ok (quot (fsub today (Some q)) (Some q)).
Proof.
  intros Hq. pose proof (feqb_zero_false q Hq) as E.
  unfold pct_change, truediv. rewrite E. split; reflexivity.
Qed.

Lemma pct_change_returns today baseline :
  exists v, pct_change today baseline = Ok v.
Proof.
  destruct baseline as [q|]; [|exists (fin 0); apply pct_change_nan].
  destruct (Qeq_dec q 0) as [Hq|Hq].
  - exists (fin 0). now apply pct_change_zero.
  - destruct (pct_change_quotient today q Hq) as [-> ->]. eauto.
Qed.

End PctChange.

(** C4.  [pct_change] returns 0 when the baseline is zero or NaN, and
    (today - baseline) / baseline otherwise: there it is the result of the
    division, whose divisor is not zero.  It returns for every pair of
    arguments and raises nothing, in particular no [ZeroDivisionError]. *)
Theorem pct_change_total (today baseline : pyfloat) :
  (forall q, baseline = Some q -> (q == 0)%Q ->
     pct_change today baseline = Ok (fin 0))
  /\ (baseline = nan -> pct_change today baseline = Ok (fin 0))
  /\ (forall q, baseline = Some q -> ~ (q == 0)%Q ->
        pct_change today baseline = truediv (fsub today baseline) baseline
        /\ pct_change today baseline = Ok (quot (fsub today baseline) baseline))
  /\ (exists v, pct_change today baseline = Ok v)
  /\ (forall e, pct_change today baseline <> Raise e).
Proof.
  split; [intros q -> Hq; now apply pct_change_zero|].
  split; [intros ->; apply pct_change_nan|].
  split.
  { intros q -> Hq. destruct (pct_change_quotient today q Hq) as [H1 H2].
    split; [exact H1 | now rewrite H1]. }
  destruct (pct_change_returns today baseline) as [v Hv].
  split; [eauto|]. intros e He. congruence.
Qed.

Lemma pct_change_total_witness :
  pct_change (fin 80) (fin 0) = Ok (fin 0)
  /\ pct_change (fin 80) nan = Ok (fin 0)
  /\ pct_change (fin 80) (fin 100) = Ok (fin ((80 - 100) / 100)).
Proof.
  destruct (pct_change_total (fin 80) (fin 0)) as (Hz & _).
  destruct (pct_change_total (fin 80) nan) as (_ & Hn & _).
  destruct (pct_change_total (fin 80) (fin 100)) as (_ & _ & Hd & _).
  split; [apply (Hz 0%Q); reflexivity|].
  split; [apply Hn; reflexivity|].
  apply (Hd 100%Q); [reflexivity | discriminate].
Defined.

(** ** Anomaly classifier *)

Section Classifier.

Local Open Scope string_scope.

(** A drop rule on a number: at most one signal, of the rule's metric. *)
Lemma drop_rule_number (m : metric) (label : string) (medium high x : Q) :
  drop_rule m label medium high (Some x)
  = Ok (if Qle_bool x (- medium)
        then [ {| sig_metric := m; sig_direction := Down;
                  sig_severity :=
                    if Qle_bool high (Qabs x) then High else Medium;
                  sig_details :=
                    label ++ " " ++ str_of_Z (rint (x * 100)) ++ vs_avg |} ]
        else []).
Proof.
  unfold drop_rule, fgeb, fleb, fneg, fabs, fin; simpl.
  destruct (Qle_bool x (- medium)); reflexivity.
Qed.

Lemma drop_rule_returns (m : metric) (label : string) (medium high : Q)
    (change : pyfloat) :
  exists l, drop_rule m label medium high change = Ok l
            /\ Forall (fun s => sig_metric s = m) l.
Proof.
  destruct change as [x|].
  - rewrite drop_rule_number. eexists; split; [reflexivity|].
    destruct (Qle_bool x (- medium)); repeat constructor.
  - exists []. split; [reflexivity | constructor].
Qed.

Lemma spike_rule_returns (change : pyfloat) :
  exists l, spike_rule change = Ok l
            /\ Forall (fun s => sig_metric s = M_canceled_orders) l.
Proof.
  destruct change as [x|].
  - unfold spike_rule, fgeb, fleb, fin; simpl.
    destruct (Qle_bool TH.cancel_spike_medium x);
      eexists; (split; [reflexivity | repeat constructor]).
  - exists []. split; [reflexivity | constructor].
Qed.

Lemma signals_of_other (m m' : metric) (l : list signal) :
  m' <> m -> Forall (fun s => sig_metric s = m') l -> signals_of m l = [].
Proof.
  intros Hne Hall. unfold signals_of.
  induction Hall as [|s l Hs _ IH]; [reflexivity|].
  rewrite filter_cons_False; [exact IH | congruence].
Qed.

Lemma signals_of_same (m : metric) (l : list signal) :
  Forall (fun s => sig_metric s = m) l -> signals_of m l = l.
Proof.
  intros Hall. unfold signals_of.
  induction Hall as [|s l Hs _ IH]; [reflexivity|].
  rewrite filter_cons_True; [now rewrite IH | exact Hs].
Qed.

(** The classifier returns for every row, and its revenue signals are
    exactly what the revenue rule emitted. *)
Lemma detect_signals_revenue (row : baseline_row) (rev_change : pyfloat) :
  pct_change (revenue (today row)) (base_revenue row) = Ok rev_change ->
  exists s_rev sigs,
    drop_rule M_revenue "Revenue" TH.revenue_drop_medium TH.revenue_drop_high
      rev_change = Ok s_rev
    /\ detect_signals row = Ok sigs
    /\ signals_of M_revenue sigs = s_rev.
Proof.
  intros Hrev. unfold detect_signals. rewrite Hrev. simpl.
  destruct (drop_rule_returns M_revenue "Revenue" TH.revenue_drop_medium
              TH.revenue_drop_high rev_change) as (s_rev & -> & Frev). simpl.
  destruct (pct_change_returns (orders_count (today row)) (base_orders_count row))
    as [ord_change ->]. simpl.
  destruct (drop_rule_returns M_orders "Orders" TH.orders_drop_medium
              TH.orders_drop_high ord_change) as (s_ord & -> & Ford). simpl.
  destruct (pct_change_returns (avg_order_value (today row))
              (base_avg_order_value row)) as [aov_change ->]. simpl.
  destruct (drop_rule_returns M_avg_order_value "AOV" TH.aov_drop_medium
              TH.aov_drop_high aov_change) as (s_aov & -> & Faov). simpl.
  destruct (pct_change_returns (canceled_orders (today row))
              (base_canceled_orders row)) as [can_change ->]. simpl.
  destruct (spike_rule_returns can_change) as (s_can & -> & Fcan). simpl.
  exists s_rev. eexists. split; [reflexivity|]. split; [reflexivity|].
  unfold signals_of. rewrite !filter_app.
  fold (signals_of M_revenue s_rev) (signals_of M_revenue s_ord)
       (signals_of M_revenue s_aov) (signals_of M_revenue s_can).
  rewrite (signals_of_same _ _ Frev).
  rewrite (signals_of_other M_revenue M_orders s_ord);
    [| discriminate | exact Ford].
  rewrite (signals_of_other M_revenue M_avg_order_value s_aov);
    [| discriminate | exact Faov].
  rewrite (signals_of_other M_revenue M_canceled_orders s_can);
    [| discriminate | exact Fcan].
  now rewrite !app_nil_r.
Qed.

Lemma detect_signals_returns (row : baseline_row) :
  exists sigs, detect_signals row = Ok sigs.
Proof.
  destruct (pct_change_returns (revenue (today row)) (base_revenue row))
    as [c Hc].
  destruct (detect_signals_revenue row c Hc) as (_ & sigs & _ & H & _).
  eauto.
Qed.

End Classifier.

(** ** Replay cursor *)

Section Replay.

Implicit Types (w : world) (e : env) (now : timestamp) (ev : evaluation).

Ltac step_bind H :=
  match type of H with
  | context [mbind _ ?r] =>
      let E := fresh "E" in
      destruct r eqn:E; simpl in H; [|discriminate H]
  end.

(** What a successful evaluation went through. *)
Lemma evaluate_Ok_iff now w ev :
  evaluate now w = Ok ev <->
  exists table c d sigs lines,
    let candidates := candidates_of table in
    let cursor := wrap (length candidates) c in
    read_data (data w) = Ok table
    /\ candidates <> []
    /\ state_cursor (load_state (state w)) = Ok c
    /\ iloc candidates cursor = Ok (ev_row ev)
    /\ date (today (ev_row ev)) = Some d
    /\ detect_signals (ev_row ev) = Ok sigs
    /\ summary_lines (strftime d) (status_of sigs) (ev_row ev) sigs = Ok lines
    /\ ev = {| ev_row := ev_row ev;
               ev_state := state_dict (load_state (state w));
               ev_cursor := cursor;
               ev_payload := make_payload now cursor (strftime d) sigs lines |}.
Proof.
  unfold evaluate. split.
  - intros H. step_bind H. rename a into table.
    case_bool_decide as Hne; [discriminate H|].
    step_bind H. rename a into c.
    step_bind H. rename a into row.
    destruct (date (today row)) as [d|] eqn:Ed; simpl in H; [|discriminate H].
    step_bind H. rename a into sigs.
    step_bind H. rename a into lines.
    injection H as <-. simpl.
    exists table, c, d, sigs, lines. simpl. rewrite E1.
    repeat (split; [assumption || reflexivity|]). reflexivity.
  - intros (table & c & d & sigs & lines & H). simpl in H.
    destruct H as (-> & Hne & -> & Hrow & Hd & Hs & Hl & ->). simpl.
    rewrite bool_decide_eq_false_2 by exact Hne.
    simpl. rewrite Hrow. simpl in *. rewrite Hd. simpl. rewrite Hs. simpl.
    rewrite Hl. reflexivity.
Qed.

(** Only the [run_time] of the payload depends on the clock. *)
Lemma evaluate_clock now now' w ev :
  evaluate now w = Ok ev ->
  exists ev',
    evaluate now' w = Ok ev'
    /\ ev_row ev' = ev_row ev
    /\ ev_cursor ev' = ev_cursor ev
    /\ ev_state ev' = ev_state ev
    /\ sim_cursor (ev_payload ev') = sim_cursor (ev_payload ev)
    /\ p_date (ev_payload ev') = p_date (ev_payload ev)
    /\ p_status (ev_payload ev') = p_status (ev_payload ev)
    /\ signals_count (ev_payload ev') = signals_count (ev_payload ev)
    /\ signals (ev_payload ev') = signals (ev_payload ev)
    /\ summary (ev_payload ev') = summary (ev_payload ev)
    /\ run_time (ev_payload ev') = isoformat now'.
Proof.
  intros H. apply evaluate_Ok_iff in H
    as (table & c & d & sigs & lines & H). simpl in H.
  destruct H as (Ht & Hne & Hc & Hrow & Hd & Hs & Hl & Hev).
  eexists {| ev_row := ev_row ev;
             ev_state := state_dict (load_state (state w));
             ev_cursor := wrap (length (candidates_of table)) c;
             ev_payload := make_payload now' _ (strftime d) sigs lines |}.
  split.
  - apply evaluate_Ok_iff. exists table, c, d, sigs, lines. simpl.
    repeat (split; [assumption|]). reflexivity.
  - rewrite Hev. simpl. repeat (split; [reflexivity|]). reflexivity.
Qed.

(** Every candidate row has its four baselines and a date on or after
    the simulation start. *)
Lemma candidates_eligible (table : list metric_row) (r : baseline_row) :
  r ∈ candidates_of table ->
  has_baselines r = true
  /\ exists d, date (today r) = Some d /\ SIM_START_DATE <= d.
Proof.
  unfold candidates_of. intros H.
  apply list_elem_of_filter in H as [Hs H].
  apply list_elem_of_filter in H as [Hb _].
  split; [destruct (has_baselines r); [reflexivity | contradiction]|].
  unfold on_or_after_start in Hs.
  destruct (date (today r)) as [d|]; [|contradiction].
  exists d. split; [reflexivity|]. apply Z.leb_le. 
  destruct (SIM_START_DATE <=? d); [reflexivity | contradiction].
Qed.

Lemma wrap_range (n : nat) (c : Z) :
  0 <= c -> (0 < n)%nat -> 0 <= wrap n c < Z.of_nat n.
Proof.
  intros Hc Hn. unfold wrap.
  destruct (Z.leb_spec (Z.of_nat n) c); lia.
Qed.

End Replay.

Section ReplayRuns.

Implicit Types (w : world) (e : env) (now : timestamp) (ev : evaluation).

(** The cursor a loaded state yields is non-negative when the stored one
    is. *)
Lemma state_cursor_nonneg (f : state_file) (c : Z) :
  replay_state_ok f -> state_cursor (load_state f) = Ok c -> 0 <= c.
Proof.
  intros Hok. destruct f as [| |[d|]]; simpl.
  - rewrite lookup_singleton_eq. simpl. intros [= <-]. lia.
  - rewrite lookup_singleton_eq. simpl. intros [= <-]. lia.
  - destruct (d !! "cursor"%string) as [[z|]|] eqn:E; simpl.
    + intros [= <-]. exact (Hok d z eq_refl E).
    + discriminate.
    + intros [= <-]. lia.
  - discriminate.
Qed.

Lemma summary_lines_cases (date_str : string) (st : status)
    (row : baseline_row) (sigs : list signal) :
  (exists lines, summary_lines date_str st row sigs = Ok lines)
  \/ summary_lines date_str st row sigs = Raise ValueError.
Proof.
  unfold summary_lines.
  destruct (orders_count (today row)); [|right; reflexivity].
  destruct (canceled_orders (today row)); [|right; reflexivity].
  left. simpl. eauto.
Qed.

(** An evaluation that found its row can only fail in the summary. *)
Lemma evaluate_at_row now w (table : list metric_row) (c : Z)
    (row : baseline_row) :
  read_data (data w) = Ok table ->
  candidates_of table <> [] ->
  state_cursor (load_state (state w)) = Ok c ->
  iloc (candidates_of table) (wrap (length (candidates_of table)) c) = Ok row ->
  (exists ev, evaluate now w = Ok ev /\ ev_row ev = row)
  \/ (evaluate now w = Raise ValueError
      /\ (isna (orders_count (today row)) = true
          \/ isna (canceled_orders (today row)) = true)).
Proof.
  intros Ht Hne Hc Hrow.
  destruct (candidates_eligible table row) as (_ & day & Hday & _).
  { unfold iloc in Hrow. destruct (_ || _); [discriminate|].
    destruct (candidates_of table !! _) as [r|] eqn:E; [|discriminate].
    injection Hrow as <-. apply list_elem_of_lookup. eauto. }
  destruct (detect_signals_returns row) as [sigs Hsigs].
  destruct (summary_lines_cases (strftime day) (status_of sigs) row sigs)
    as [[lines Hl]|Hl].
  - left.
    exists {| ev_row := row;
              ev_state := state_dict (load_state (state w));
              ev_cursor := wrap (length (candidates_of table)) c;
              ev_payload :=
                make_payload now (wrap (length (candidates_of table)) c)
                  (strftime day) sigs lines |}.
    split; [|reflexivity].
    apply evaluate_Ok_iff. exists table, c, day, sigs, lines. simpl.
    repeat (split; [assumption|]). reflexivity.
  - right. split.
    + unfold evaluate. rewrite Ht. simpl.
      rewrite bool_decide_eq_false_2 by exact Hne.
      rewrite Hc. simpl. rewrite Hrow. simpl. rewrite Hday. simpl.
      rewrite Hsigs. simpl. rewrite Hl. reflexivity.
    + unfold summary_lines in Hl.
      destruct (orders_count (today row)); [|left; reflexivity].
      destruct (canceled_orders (today row)); [|right; reflexivity].
      discriminate Hl.
Qed.

Lemma iloc_in_range {A : Type} (l : list A) (c : Z) :
  0 <= c < Z.of_nat (length l) -> exists a, iloc l c = Ok a.
Proof.
  intros Hc. unfold iloc.
  destruct (Z.ltb_spec c 0) as [?|_]; [lia|].
  destruct (Z.ltb_spec c 0) as [?|_]; [lia|].
  destruct (Z.leb_spec (Z.of_nat (length l)) c) as [?|_]; [lia|]. simpl.
  destruct (lookup_lt_is_Some_2 l (Z.to_nat c)) as [a ->]; [lia | eauto].
Qed.

(** From a well-typed replay state no invocation runs out of eligible days:
    whatever the stored cursor, [main] raises no [IndexError]. *)
Lemma replay_never_exhausted e w :
  replay_state_ok (state w) -> run_outcome (main e w) <> Raised IndexError.
Proof.
  intros Hok. unfold main.
  destruct (evaluate (clock e) w) as [ev|x] eqn:E; simpl; [discriminate|].
  intros [= ->]. unfold evaluate in E.
  destruct (read_data (data w)) as [table|x] eqn:Et; simpl in E.
  2:{ injection E as ->. unfold read_data in Et.
      destruct (data w) as [| |df]; [discriminate.. |].
      destruct (forallb _ required); discriminate. }
  case_bool_decide as Hne; [discriminate E|].
  destruct (state_cursor (load_state (state w))) as [c|x] eqn:Ec; simpl in E.
  2:{ injection E as ->. unfold state_cursor in Ec.
      destruct (load_state (state w)) as [d|]; [|discriminate].
      destruct (default (JInt 0) (d !! "cursor"%string)); discriminate. }
  assert (Hpos : (0 < length (candidates_of table))%nat).
  { destruct (candidates_of table); [contradiction | simpl; lia]. }
  pose proof (wrap_range _ _ (state_cursor_nonneg _ _ Hok Ec) Hpos) as Hr.
  destruct (iloc_in_range (candidates_of table) _ Hr) as [row Hrow].
  destruct (evaluate_at_row (clock e) w table c row Et Hne Ec Hrow)
    as [(ev & Hev & _)|(Hev & _)]; unfold evaluate in Hev;
    rewrite Et in Hev; simpl in Hev;
    rewrite bool_decide_eq_false_2 in Hev by exact Hne;
    rewrite Ec in Hev; simpl in Hev; congruence.
Qed.

Lemma read_data_missing_column (df : frame) (c : string) :
  c ∈ required -> c ∉ columns df -> read_data (Csv df) = Raise ValueError.
Proof.
  intros Hreq Hmiss. unfold read_data.
  destruct (forallb _ required) eqn:F; [|reflexivity].
  rewrite forallb_forall in F. specialize (F c).
  rewrite <- list_elem_of_In in F. specialize (F Hreq).
  apply bool_decide_eq_true in F. contradiction.
Qed.

Lemma main_Returned e w :
  run_outcome (main e w) = Returned ->
  exists ev, evaluate (clock e) w = Ok ev
             /\ main e w = {| run_outcome := Returned;
                              run_world := {| data := data w; state := persist ev |};
                              run_events := deliver (webhook e) (ev_payload ev) |}.
Proof.
  unfold main. destruct (evaluate (clock e) w) as [ev|x]; [eauto | discriminate].
Qed.

Lemma persist_cursor ev :
  exists d, persist ev = Stored (JObject d)
            /\ d !! "cursor"%string = Some (JInt (ev_cursor ev + 1)).
Proof.
  unfold persist, save_state. eexists. split; [reflexivity|].
  apply lookup_insert_eq.
Qed.

End ReplayRuns.



(** C7.  Once an invocation has evaluated a day, it returns normally and
    stores (cursor used) + 1 whatever the webhook call did: an exception of
    the POST is caught and printed, the payload was handed over once, and
    the stored state is the one a successful delivery leaves. *)
Theorem cursor_advances_despite_delivery (now : timestamp) (w : world)
    (ev : evaluation) (answer : post_result) :
  evaluate now w = Ok ev ->
  let r := main {| clock := now; webhook := answer |} w in
  run_outcome r = Returned
  /\ sim_cursor (ev_payload ev) = ev_cursor ev
  /\ posted r = [ ev_payload ev ]
  /\ (exists d, state (run_world r) = Stored (JObject d)
                /\ d !! "cursor"%string = Some (JInt (ev_cursor ev + 1)))
  /\ (forall msg, answer = PostRaised msg ->
        List.In (Printed_webhook_failed msg) (run_events r)
        /\ forall code,
             run_world r
             = run_world (main {| clock := now; webhook := Responded code |} w)).
Proof.
  intros Hev r. subst r. unfold main. simpl. rewrite Hev. simpl.
  split; [reflexivity|]. split.
  { apply evaluate_Ok_iff in Hev as (t & c & d & sg & ls & H). simpl in H.
    destruct H as (_ & _ & _ & _ & _ & _ & _ & ->). reflexivity. }
  split; [destruct answer; reflexivity|]. split; [apply persist_cursor|].
  intros msg ->. split; [simpl; auto|]. reflexivity.
Qed.

Lemma cursor_advances_despite_delivery_witness :
  let w := Samples.sample_world NoStateFile in
  let r := main {| clock := Samples.one_o_clock;
                   webhook := PostRaised "timed out" |} w in
  run_outcome r = Returned
  /\ exists d, state (run_world r) = Stored (JObject d)
               /\ d !! "cursor"%string = Some (JInt 1).
Proof.
  intros w r.
  destruct (evaluate Samples.one_o_clock w) as [ev|x] eqn:E;
    [|vm_compute in E; discriminate E].
  destruct (cursor_advances_despite_delivery Samples.one_o_clock w ev
              (PostRaised "timed out") E) as (Hret & _ & _ & Hst & _).
  split; [exact Hret|].
  assert (Hc : ev_cursor ev = 0).
  { vm_compute in E. injection E as <-. reflexivity. }
  rewrite Hc in Hst. exact Hst.
Defined.

(** C9.  Each fatal cause -- no input file, an input file that does not
    parse, a required column missing, no eligible day -- makes [main] raise,
    and an invocation that raises (every exception of the model comes from
    lines 59-171, before [save_state]) leaves the stored replay state as it
    found it and emits nothing. *)
Theorem fatal_before_state_mutation (e : env) (w : world) :
  (data w = NoDataFile -> run_outcome (main e w) = Raised FileNotFoundError)
  /\ (data w = Unparsable -> run_outcome (main e w) = Raised ParserError)
  /\ (forall df c, data w = Csv df -> c ∈ required -> c ∉ columns df ->
        run_outcome (main e w) = Raised ValueError)
  /\ (forall table, read_data (data w) = Ok table -> candidates_of table = [] ->
        run_outcome (main e w) = Raised ValueError)
  /\ (forall x, run_outcome (main e w) = Raised x ->
        run_world (main e w) = w /\ run_events (main e w) = []).
Proof.
  unfold main, evaluate.
  split; [intros ->; reflexivity|].
  split; [intros ->; reflexivity|].
  split.
  { intros df c -> Hreq Hmiss.
    rewrite (read_data_missing_column df c Hreq Hmiss). reflexivity. }
  split.
  { intros table -> Hnil. simpl. rewrite Hnil. reflexivity. }
  intros x. fold (evaluate (clock e) w).
  destruct (evaluate (clock e) w) as [ev|y]; simpl; [discriminate|].
  intros _. split; reflexivity.
Qed.

Lemma fatal_before_state_mutation_witness :
  let w := {| data := NoDataFile; state := Samples.cursor_file 3 |} in
  let r := main {| clock := Samples.one_o_clock; webhook := Responded 200 |} w in
  run_outcome r = Raised FileNotFoundError
  /\ state (run_world r) = Samples.cursor_file 3.
Proof.
  intros w r.
  destruct (fatal_before_state_mutation
              {| clock := Samples.one_o_clock; webhook := Responded 200 |} w)
    as (Hmissing & _ & _ & _ & Hkeep).
  pose proof (Hmissing eq_refl) as Hr.
  split; [exact Hr|].
  destruct (Hkeep FileNotFoundError Hr) as [Hw _].
  fold r in Hw. rewrite Hw. reflexivity.
Defined.

(** C10.  An invocation that returns, started from a replay state whose
    stored cursor (if any) is non-negative, stores (cursor used) + 1: a value
    between 1 and the number N of eligible days, never 0, and equal to N when
    the loaded cursor was N - 1; the wrap to 0 happens at the next load.  The
    state it leaves is again a well-typed replay state. *)
Theorem persisted_cursor_at_least_one (e : env) (w : world) :
  replay_state_ok (state w) ->
  run_outcome (main e w) = Returned ->
  exists ev table c d,
    let n := Z.of_nat (length (candidates_of table)) in
    evaluate (clock e) w = Ok ev
    /\ read_data (data w) = Ok table
    /\ state_cursor (load_state (state w)) = Ok c
    /\ ev_cursor ev = wrap (length (candidates_of table)) c
    /\ sim_cursor (ev_payload ev) = ev_cursor ev
    /\ state (run_world (main e w)) = Stored (JObject d)
    /\ d !! "cursor"%string = Some (JInt (ev_cursor ev + 1))
    /\ 1 <= ev_cursor ev + 1 <= n
    /\ (c = n - 1 -> ev_cursor ev + 1 = n)
    /\ wrap (length (candidates_of table)) n = 0
    /\ replay_state_ok (state (run_world (main e w))).
Proof.
  intros Hok Hret.
  destruct (main_Returned e w Hret) as (ev & Hev & Hmain).
  pose proof Hev as Hinv.
  apply evaluate_Ok_iff in Hinv as (table & c & day & sigs & lines & H).
  simpl in H. destruct H as (Ht & Hne & Hc & Hrow & _ & _ & _ & Heq).
  destruct (persist_cursor ev) as (d & Hp & Hd).
  assert (Hcur : ev_cursor ev = wrap (length (candidates_of table)) c)
    by (rewrite Heq; reflexivity).
  assert (Hpos : (0 < length (candidates_of table))%nat).
  { destruct (candidates_of table); [contradiction | simpl; lia]. }
  pose proof (state_cursor_nonneg _ _ Hok Hc) as Hc0.
  pose proof (wrap_range _ _ Hc0 Hpos) as Hr.
  exists ev, table, c, d. simpl.
  split; [exact Hev|]. split; [exact Ht|]. split; [exact Hc|].
  split; [exact Hcur|]. split; [rewrite Heq; reflexivity|].
  rewrite Hmain. simpl. split; [exact Hp|]. split; [exact Hd|].
  split; [lia|]. split.
  { intros ->. rewrite Hcur. unfold wrap.
    destruct (Z.leb_spec (Z.of_nat (length (candidates_of table)))
                (Z.of_nat (length (candidates_of table)) - 1)); lia. }
  split.
  { unfold wrap. now rewrite Z.leb_refl. }
  intros d' c' Hs Hl. rewrite Hp in Hs. injection Hs as <-.
  rewrite Hd in Hl. injection Hl as <-. lia.
Qed.

(** C10 on the sample table (one eligible day) without a state file: the
    stored cursor is 1, the number of eligible days. *)
Lemma persisted_cursor_at_least_one_witness :
  let w := Samples.sample_world NoStateFile in
  let e := {| clock := Samples.one_o_clock; webhook := Responded 200 |} in
  length (candidates_of Samples.steady_then_drop) = 1%nat
  /\ exists d, state (run_world (main e w)) = Stored (JObject d)
               /\ d !! "cursor"%string = Some (JInt 1).
Proof.
  intros w e. split; [vm_compute; reflexivity|].
  destruct (persisted_cursor_at_least_one e w)
    as (ev & table & c & d & H).
  - intros d c [=].
  - vm_compute. reflexivity.
  - simpl in H. destruct H as (Hev & _ & _ & _ & _ & Hs & Hd & _).
    exists d. split; [exact Hs|].
    assert (Hc : ev_cursor ev = 0).
    { vm_compute in Hev. injection Hev as <-. reflexivity. }
    rewrite Hc in Hd. exact Hd.
Defined.

(** C8 as stated fails: after a first invocation killed before the state
    write, a second one over the same files, one second later, posts a
    payload that differs from the first. *)
Lemma rerun_payload_differs :
  let w := Samples.sample_world NoStateFile in
  let first := main_killed_before_save
                 {| clock := Samples.one_o_clock; webhook := Responded 200 |} w in
  let second := main {| clock := Samples.a_second_later;
                        webhook := Responded 200 |} (run_world first) in
  run_outcome first = Killed
  /\ run_world first = w
  /\ run_outcome second = Returned
  /\ posted first <> posted second.
Proof.
  intros w first second.
  split; [vm_compute; reflexivity|]. split; [vm_compute; reflexivity|].
  split; [vm_compute; reflexivity|].
  intros H. apply (f_equal (fmap run_time)) in H. vm_compute in H.
  discriminate H.
Qed.

(** C8, amended.  When a first invocation evaluated a day and was killed
    before the state write, the files are as before, and a second invocation
    over them evaluates the same row at the same cursor and posts a payload
    equal to the first in sim_cursor, date, status, signals_count, signals
    and summary; run_time is the second invocation's own clock reading, so
    the payloads are identical exactly when the two clock readings render
    alike. *)
Theorem rerun_after_crash_same_day (e1 e2 : env) (w : world) (ev1 : evaluation) :
  evaluate (clock e1) w = Ok ev1 ->
  let first := main_killed_before_save e1 w in
  let second := main e2 (run_world first) in
  run_outcome first = Killed
  /\ run_world first = w
  /\ posted first = [ ev_payload ev1 ]
  /\ exists ev2,
       evaluate (clock e2) (run_world first) = Ok ev2
       /\ posted second = [ ev_payload ev2 ]
       /\ ev_row ev2 = ev_row ev1
       /\ ev_cursor ev2 = ev_cursor ev1
       /\ sim_cursor (ev_payload ev2) = sim_cursor (ev_payload ev1)
       /\ p_date (ev_payload ev2) = p_date (ev_payload ev1)
       /\ p_status (ev_payload ev2) = p_status (ev_payload ev1)
       /\ signals_count (ev_payload ev2) = signals_count (ev_payload ev1)
       /\ signals (ev_payload ev2) = signals (ev_payload ev1)
       /\ summary (ev_payload ev2) = summary (ev_payload ev1)
       /\ run_time (ev_payload ev1) = isoformat (clock e1)
       /\ run_time (ev_payload ev2) = isoformat (clock e2)
       /\ (ev_payload ev2 = ev_payload ev1
           <-> isoformat (clock e2) = isoformat (clock e1)).
Proof.
  intros H1 first second. subst first second.
  unfold main_killed_before_save. rewrite H1. simpl.
  split; [reflexivity|]. split; [reflexivity|].
  split; [destruct (webhook e1); reflexivity|].
  destruct (evaluate_clock (clock e1) (clock e2) w ev1 H1)
    as (ev2 & H2 & Hrow & Hcur & Hst & Hsc & Hdt & Hstat & Hn & Hsig & Hsum & Hrt).
  destruct (evaluate_clock (clock e1) (clock e1) w ev1 H1)
    as (ev1' & H1' & _ & _ & _ & _ & _ & _ & _ & _ & _ & Hrt1).
  rewrite H1 in H1'. injection H1' as <-.
  exists ev2. split; [exact H2|]. split.
  { unfold main. rewrite H2. destruct (webhook e2); reflexivity. }
  repeat (split; [assumption|]).
  split.
  - intros E. rewrite <- Hrt, <- Hrt1, E. reflexivity.
  - intros E. destruct (ev_payload ev2), (ev_payload ev1). simpl in *.
    congruence.
Qed.

Lemma rerun_after_crash_same_day_witness :
  let w := Samples.sample_world NoStateFile in
  let e1 := {| clock := Samples.one_o_clock; webhook := Responded 200 |} in
  let e2 := {| clock := Samples.a_second_later; webhook := PostRaised "refused" |} in
  exists ev1 ev2,
    evaluate (clock e1) w = Ok ev1
    /\ evaluate (clock e2) (run_world (main_killed_before_save e1 w)) = Ok ev2
    /\ ev_row ev2 = ev_row ev1
    /\ summary (ev_payload ev2) = summary (ev_payload ev1).
Proof.
  intros w e1 e2.
  destruct (evaluate (clock e1) w) as [ev1|x] eqn:E;
    [|vm_compute in E; discriminate E].
  destruct (rerun_after_crash_same_day e1 e2 w ev1 E)
    as (_ & _ & _ & ev2 & H2 & _ & Hrow & _ & _ & _ & _ & _ & _ & Hsum & _).
  exists ev1, ev2. split; [reflexivity|]. split; [exact H2|].
  split; [exact Hrow | exact Hsum].
Defined.

(** ** Baseline engine *)

Section Baselines.

Implicit Types (df : list metric_row) (xs : list pyfloat) (c : column).

(** The mean of a window of numbers is their sum over their count. *)
Lemma mean_numbers (qs : list Q) :
  mean (fin <$> qs)
  = fin (foldr Qplus 0%Q qs / inject_Z (Z.of_nat (length qs))).
Proof.
  unfold mean. rewrite length_fmap.
  assert (E : fsum (fin <$> qs) = fin (foldr Qplus 0%Q qs)).
  { induction qs as [|q t IH]; [reflexivity|].
    rewrite fmap_cons. simpl. rewrite IH. reflexivity. }
  rewrite E. reflexivity.
Qed.

(** A window that holds a NaN has no mean. *)
Lemma mean_nan xs : nan ∈ xs -> mean xs = nan.
Proof.
  intros H. unfold mean.
  assert (E : fsum xs = nan).
  { induction xs as [|x t IH]; [apply elem_of_nil in H; contradiction|].
    apply elem_of_cons in H as [<-|H]; [reflexivity|].
    simpl. rewrite (IH H). destruct x; reflexivity. }
  rewrite E. reflexivity.
Qed.

Lemma numbers_of_window xs :
  (nan ∉ xs) -> fin <$> (default 0%Q <$> xs) = xs.
Proof.
  induction xs as [|x t IH]; intros H; [reflexivity|].
  rewrite !fmap_cons. rewrite IH by (intros Hin; apply H; now right).
  destruct x as [q|]; [reflexivity|]. exfalso. apply H. now left.
Qed.

Lemma rolling_mean_length (w : nat) xs :
  length (rolling_mean w xs) = length xs.
Proof. unfold rolling_mean. apply length_imap. Qed.

Lemma rolling_mean_lookup (w : nat) xs (j : nat) :
  (j < length xs)%nat ->
  rolling_mean w xs !! j
  = Some (if (j + 1 <? w)%nat then nan
          else mean (take w (drop (j + 1 - w) xs))).
Proof.
  intros Hj. unfold rolling_mean. rewrite list_lookup_imap.
  destruct (lookup_lt_is_Some_2 xs j Hj) as [x ->]. reflexivity.
Qed.

Lemma shift1_lookup_0 xs : xs <> [] -> shift1 xs !! 0%nat = Some nan.
Proof. destruct xs; [contradiction | reflexivity]. Qed.

Lemma shift1_lookup_S xs (j : nat) :
  (S j < length xs)%nat -> shift1 xs !! S j = xs !! j.
Proof.
  intros Hj. unfold shift1. rewrite lookup_take_lt by exact Hj. reflexivity.
Qed.

(** Position [i] of a baseline column: NaN on the first [ROLLING_DAYS]
    rows, then the mean of the [ROLLING_DAYS] values before row [i]. *)
Lemma base_column_lookup c df (i : nat) :
  (i < length df)%nat ->
  base_column c df !! i
  = Some (if (i <? ROLLING_DAYS)%nat then nan
          else mean (take ROLLING_DAYS (drop (i - ROLLING_DAYS) (cell c <$> df)))).
Proof.
  intros Hi. unfold base_column.
  assert (Hlen : length (rolling_mean ROLLING_DAYS (cell c <$> df)) = length df)
    by now rewrite rolling_mean_length, length_fmap.
  destruct i as [|j].
  - rewrite shift1_lookup_0; [reflexivity|].
    intros E. rewrite E in Hlen. simpl in Hlen. lia.
  - rewrite shift1_lookup_S by lia.
    rewrite rolling_mean_lookup by (rewrite length_fmap; lia).
    replace (j + 1)%nat with (S j) by lia. reflexivity.
Qed.

Lemma add_baselines_lookup df (i : nat) (r : baseline_row) c :
  add_baselines df !! i = Some r ->
  df !! i = Some (today r)
  /\ base c r
     = (if (i <? ROLLING_DAYS)%nat then nan
        else mean (take ROLLING_DAYS (drop (i - ROLLING_DAYS) (cell c <$> df)))).
Proof.
  unfold add_baselines. intros H.
  apply list_lookup_imap_Some in H as (t & Ht & ->). simpl.
  split; [exact Ht|].
  pose proof (lookup_lt_Some _ _ _ Ht) as Hi.
  destruct c; simpl; rewrite base_column_lookup by exact Hi; reflexivity.
Qed.

(** Row [i] of a daily table is the calendar day [d0 + i]. *)
Lemma daily_from_lookup (d0 : Z) df (i : nat) (r : metric_row) :
  daily_from d0 df -> df !! i = Some r -> date r = Some (d0 + Z.of_nat i).
Proof.
  unfold daily_from. intros H Hr.
  pose proof (lookup_lt_Some _ _ _ Hr) as Hi.
  assert (E : (date <$> df) !! i = Some (date r))
    by now rewrite list_lookup_fmap, Hr.
  rewrite H, list_lookup_fmap, lookup_seqZ_lt in E by lia.
  now injection E as <-.
Qed.

Lemma daily_from_tail (d0 : Z) (r : metric_row) df :
  daily_from d0 (r :: df) -> date r = Some d0 /\ daily_from (d0 + 1) df.
Proof.
  unfold daily_from. intros H.
  rewrite seqZ_cons in H by (simpl; lia). rewrite !fmap_cons in H.
  injection H as Hr Ht. split; [exact Hr|].
  rewrite Ht. f_equal. f_equal; simpl length; lia.
Qed.

(** On a daily table the value of calendar day [d0 + k] is the cell of
    row [k]. *)
Lemma value_on_daily c df (d0 : Z) (k : nat) :
  daily_from d0 df ->
  value_on c df (d0 + Z.of_nat k) = (cell c <$> df) !! k.
Proof.
  revert d0 k. induction df as [|r df IH]; intros d0 k Hd; [reflexivity|].
  apply daily_from_tail in Hd as [Hr Hd]. unfold value_on. simpl.
  rewrite Hr. destruct k as [|k].
  - rewrite bool_decide_eq_true_2 by (f_equal; lia). reflexivity.
  - rewrite bool_decide_eq_false_2 by (intros [=]; lia).
    specialize (IH (d0 + 1) k Hd). unfold value_on in IH.
    replace (d0 + Z.of_nat (S k)) with (d0 + 1 + Z.of_nat k) by lia.
    exact IH.
Qed.

Lemma window_lookup xs (i k : nat) :
  (ROLLING_DAYS <= i)%nat -> (i <= length xs)%nat -> (k < ROLLING_DAYS)%nat ->
  take ROLLING_DAYS (drop (i - ROLLING_DAYS) xs) !! k
  = xs !! (i - ROLLING_DAYS + k)%nat.
Proof.
  intros Hi Hlen Hk. rewrite lookup_take_lt by exact Hk.
  now rewrite lookup_drop.
Qed.

Lemma window_length xs (i : nat) :
  (ROLLING_DAYS <= i)%nat -> (i <= length xs)%nat ->
  length (take ROLLING_DAYS (drop (i - ROLLING_DAYS) xs)) = ROLLING_DAYS.
Proof.
  intros Hi Hlen. rewrite length_take, length_drop. lia.
Qed.

End Baselines.

(** C1.  On a daily table (after the sort, row i is calendar day d0 + i), for
    each of the four metrics and the row of day D = d0 + i: the baseline is
    NaN on the first ROLLING_DAYS rows; a baseline that is defined belongs to
    a row i >= ROLLING_DAYS; from row ROLLING_DAYS on it is the mean of the
    metric's values on the calendar days D - ROLLING_DAYS .. D - 1, so a
    defined baseline b is the sum of seven numbers, the values of those
    days, over ROLLING_DAYS; and any other daily table with the same values
    on the days before D -- whatever it holds on D and after -- has the same
    baseline on D. *)
Theorem baseline_is_mean_of_previous_days (table : list metric_row) (d0 : Z)
    (c : column) (i : nat) (r : baseline_row) :
  let df := sort_values table in
  let D := d0 + Z.of_nat i in
  let w := Z.of_nat ROLLING_DAYS in
  daily_from d0 df ->
  add_baselines df !! i = Some r ->
  date (today r) = Some D
  /\ ((i < ROLLING_DAYS)%nat -> base c r = nan)
  /\ (base c r <> nan -> (ROLLING_DAYS <= i)%nat)
  /\ ((ROLLING_DAYS <= i)%nat ->
      exists window : list pyfloat,
        length window = ROLLING_DAYS
        /\ (forall k : nat, (k < ROLLING_DAYS)%nat ->
              value_on c df (D - w + Z.of_nat k) = window !! k)
        /\ base c r = mean window)
  /\ (forall b : Q, base c r = fin b ->
        exists qs : list Q,
          length qs = ROLLING_DAYS
          /\ (forall k : nat, (k < ROLLING_DAYS)%nat ->
                value_on c df (D - w + Z.of_nat k) = fin <$> qs !! k)
          /\ b = (foldr Qplus 0 qs / inject_Z w)%Q)
  /\ (forall (table' : list metric_row) (r' : baseline_row),
        daily_from d0 (sort_values table') ->
        (forall day, day < D ->
           value_on c (sort_values table') day = value_on c df day) ->
        add_baselines (sort_values table') !! i = Some r' ->
        base c r' = base c r).
Proof.
  intros df D w Hd Hr.
  destruct (add_baselines_lookup df i r c Hr) as [Ht Hb].
  pose proof (lookup_lt_Some _ _ _ Ht) as Hi.
  assert (Hlow : (i < ROLLING_DAYS)%nat -> base c r = nan).
  { intros H. rewrite Hb. apply Nat.ltb_lt in H. now rewrite H. }
  split; [exact (daily_from_lookup d0 df i _ Hd Ht)|]. split; [exact Hlow|]. split.
  { intros Hdef. destruct (Nat.lt_ge_cases i ROLLING_DAYS) as [H|H]; [|exact H].
    contradiction (Hdef (Hlow H)). }
  assert (Hwin : (ROLLING_DAYS <= i)%nat ->
                 exists window : list pyfloat,
                   length window = ROLLING_DAYS
                   /\ (forall k : nat, (k < ROLLING_DAYS)%nat ->
                         value_on c df (D - w + Z.of_nat k) = window !! k)
                   /\ base c r = mean window).
  { intros Hge.
    exists (take ROLLING_DAYS (drop (i - ROLLING_DAYS) (cell c <$> df))).
    split; [apply window_length; [exact Hge | rewrite length_fmap; lia]|].
    split.
    + intros k Hk.
      rewrite window_lookup by (try rewrite length_fmap; lia).
      rewrite <- (value_on_daily c df d0 _ Hd). f_equal. subst D w. lia.
    + rewrite Hb. apply Nat.ltb_ge in Hge. now rewrite Hge. }
  split; [exact Hwin|]. split.
  - intros b Hdef.
    assert (Hge : (ROLLING_DAYS <= i)%nat).
    { destruct (Nat.lt_ge_cases i ROLLING_DAYS) as [H|H]; [|exact H].
      rewrite (Hlow H) in Hdef. discriminate Hdef. }
    destruct (Hwin Hge) as (window & Hlen & Hval & Hmean).
    assert (Hnum : nan ∉ window).
    { intros Hin. rewrite (mean_nan window Hin), Hdef in Hmean.
      discriminate Hmean. }
    exists (default 0%Q <$> window).
    split; [now rewrite length_fmap|]. split.
    + intros k Hk. rewrite (Hval k Hk), <- list_lookup_fmap.
      now rewrite numbers_of_window.
    + rewrite <- (numbers_of_window window Hnum), mean_numbers in Hmean.
      rewrite length_fmap, Hdef in Hmean. injection Hmean as ->.
      unfold w. rewrite <- Hlen. reflexivity.
  - intros table' r' Hd' Hsame Hr'.
    destruct (add_baselines_lookup (sort_values table') i r' c Hr') as [Ht' Hb'].
    pose proof (lookup_lt_Some _ _ _ Ht') as Hi'.
    rewrite Hb, Hb'. destruct (Nat.ltb_spec i ROLLING_DAYS) as [|Hge]; [reflexivity|].
    f_equal. apply list_eq. intros k.
    destruct (Nat.lt_ge_cases k ROLLING_DAYS) as [Hk|Hk].
    + rewrite !window_lookup by (try rewrite length_fmap; lia).
      rewrite <- (value_on_daily c _ d0 _ Hd'), <- (value_on_daily c df d0 _ Hd).
      apply Hsame. subst D. lia.
    + rewrite !lookup_take_ge by exact Hk. reflexivity.
Qed.

(** C1 on the sample table, given in reverse order: the order baseline of
    2017-01-12 is the mean of the seven days before it. *)
Lemma baseline_is_mean_of_previous_days_witness :
  let df := sort_values (rev Samples.steady_then_drop) in
  date (today Samples.drop_day) = Some 17178
  /\ exists window : list pyfloat,
       length window = ROLLING_DAYS
       /\ (forall k : nat, (k < ROLLING_DAYS)%nat ->
             value_on Orders_count df (17171 + Z.of_nat k) = window !! k)
       /\ base Orders_count Samples.drop_day = mean window.
Proof.
  intros df.
  destruct (baseline_is_mean_of_previous_days (rev Samples.steady_then_drop)
              17168 Orders_count 10 Samples.drop_day) as (H1 & _ & _ & H4 & _).
  - vm_compute. reflexivity.
  - vm_compute. reflexivity.
  - split; [exact H1|]. apply H4. unfold ROLLING_DAYS. lia.
Defined.

(** ** Metric aggregator *)

Section Aggregator.

Import Kpi.

Implicit Types (orders : list order) (daily : list frame_row) (d : Z).

Lemma elem_of_insert_key (x d : Z) (l : list Z) :
  x ∈ insert_key d l <-> x = d \/ x ∈ l.
Proof.
  induction l as [|h t IH]; simpl.
  - rewrite list_elem_of_singleton, elem_of_nil. tauto.
  - destruct (Z.ltb_spec d h); [rewrite !elem_of_cons; tauto|].
    destruct (Z.eqb_spec d h) as [->|_]; rewrite !elem_of_cons.
    + tauto.
    + rewrite IH. tauto.
Qed.

Lemma elem_of_group_keys (x : Z) (l : list Z) : x ∈ group_keys l <-> x ∈ l.
Proof.
  unfold group_keys. induction l as [|h t IH]; simpl; [reflexivity|].
  rewrite elem_of_insert_key, IH, elem_of_cons. reflexivity.
Qed.

Lemma elem_of_insert_row (x r : frame_row) daily :
  x ∈ insert_row r daily <-> x = r \/ x ∈ daily.
Proof.
  induction daily as [|h t IH]; simpl.
  - rewrite list_elem_of_singleton, elem_of_nil. tauto.
  - destruct (date r <=? date h); rewrite !elem_of_cons; [tauto|].
    rewrite IH. tauto.
Qed.

Lemma elem_of_sort_values (x : frame_row) daily :
  x ∈ Kpi.sort_values daily <-> x ∈ daily.
Proof.
  unfold Kpi.sort_values. induction daily as [|h t IH]; simpl; [reflexivity|].
  rewrite elem_of_insert_row, IH, elem_of_cons. reflexivity.
Qed.

(** Dropping the rows without a timestamp keeps the purchase days. *)
Lemma purchase_days_dropna orders :
  purchase_days (dropna_timestamp orders) = purchase_days orders.
Proof.
  unfold purchase_days, dropna_timestamp, purchase_date.
  induction orders as [|o t IH]; [reflexivity|].
  destruct (order_purchase_timestamp o) as [ts|] eqn:E.
  - rewrite filter_cons_True by (rewrite E; eauto).
    simpl. rewrite E. simpl. f_equal. exact IH.
  - rewrite filter_cons_False by (rewrite E; intros [? [=]]).
    simpl. rewrite E. simpl. exact IH.
Qed.

Lemma elem_of_purchase_days d orders :
  d ∈ purchase_days orders <-> exists o, o ∈ orders /\ purchase_date o = Some d.
Proof. unfold purchase_days. apply list_elem_of_omap. Qed.

(** An order with a purchase day is among the orders line 39 keeps. *)
Lemma elem_of_dropna_timestamp (o : order) orders d :
  o ∈ orders -> purchase_date o = Some d -> o ∈ dropna_timestamp orders.
Proof.
  intros Ho Hd. unfold dropna_timestamp. apply list_elem_of_filter.
  split; [|exact Ho]. unfold purchase_date in Hd.
  destruct (order_purchase_timestamp o); [eauto | discriminate Hd].
Qed.

Lemma date_min_spec daily :
  daily <> [] ->
  exists m, date_min daily = Some m
            /\ m ∈ date <$> daily
            /\ forall d, d ∈ date <$> daily -> m <= d.
Proof.
  induction daily as [|r t IH]; [contradiction|]. intros _.
  destruct t as [|r' t'].
  - exists (date r). simpl. split; [reflexivity|].
    split; [apply list_elem_of_here|].
    intros d Hd. apply list_elem_of_singleton in Hd. lia.
  - destruct IH as (m & Hm & Hin & Hle); [discriminate|].
    change (date_min (r :: r' :: t'))
      with (Some (from_option (Z.min (date r)) (date r) (date_min (r' :: t')))).
    rewrite Hm. simpl from_option.
    exists (Z.min (date r) m). split; [reflexivity|]. split.
    + rewrite fmap_cons.
      destruct (Z.min_spec (date r) m) as [[_ ->]|[_ ->]];
        [apply list_elem_of_here | apply list_elem_of_further; exact Hin].
    + intros d Hd. rewrite fmap_cons in Hd.
      apply elem_of_cons in Hd as [->|Hd]; [lia|].
      specialize (Hle d Hd). lia.
Qed.

Lemma date_max_spec daily :
  daily <> [] ->
  exists m, date_max daily = Some m
            /\ m ∈ date <$> daily
            /\ forall d, d ∈ date <$> daily -> d <= m.
Proof.
  induction daily as [|r t IH]; [contradiction|]. intros _.
  destruct t as [|r' t'].
  - exists (date r). simpl. split; [reflexivity|].
    split; [apply list_elem_of_here|].
    intros d Hd. apply list_elem_of_singleton in Hd. lia.
  - destruct IH as (m & Hm & Hin & Hle); [discriminate|].
    change (date_max (r :: r' :: t'))
      with (Some (from_option (Z.max (date r)) (date r) (date_max (r' :: t')))).
    rewrite Hm. simpl from_option.
    exists (Z.max (date r) m). split; [reflexivity|]. split.
    + rewrite fmap_cons.
      destruct (Z.max_spec (date r) m) as [[_ ->]|[_ ->]];
        [apply list_elem_of_further; exact Hin | apply list_elem_of_here].
    + intros d Hd. rewrite fmap_cons in Hd.
      apply elem_of_cons in Hd as [->|Hd]; [lia|].
      specialize (Hle d Hd). lia.
Qed.

Lemma fillna0_fin (a : pyfloat) : exists q, fillna0 a = fin q.
Proof. destruct a as [q|]; simpl; eauto. Qed.

Lemma combine_dates orders (ri : list (Z * pyfloat))
    (rp : option (list (Z * pyfloat))) :
  date <$> combine orders ri rp = group_keys (purchase_days orders).
Proof.
  unfold combine, purchase_days. apply list_eq. intros i.
  rewrite !list_lookup_fmap.
  destruct (group_keys (omap purchase_date orders) !! i); reflexivity.
Qed.

(** The dates of the sorted pre-fill frame are the observed purchase days. *)
Lemma daily_dates orders (ri : list (Z * pyfloat))
    (rp : option (list (Z * pyfloat))) d :
  d ∈ date <$> Kpi.sort_values (combine orders ri rp) <-> d ∈ purchase_days orders.
Proof.
  rewrite <- (elem_of_group_keys d (purchase_days orders)).
  rewrite <- (combine_dates orders ri rp).
  rewrite !list_elem_of_fmap.
  split; intros (r & -> & Hr); exists r; (split; [reflexivity|]);
    apply elem_of_sort_values; exact Hr.
Qed.

(** A pre-fill row belongs to a purchase day and has a numeric revenue; it
    counts at least one order as soon as an order of the day carries its
    id. *)
Lemma combine_row orders (ri : list (Z * pyfloat))
    (rp : option (list (Z * pyfloat))) (r : frame_row) :
  r ∈ combine orders ri rp ->
  date r ∈ purchase_days orders
  /\ exists n rev : Q,
       orders_count r = fin n /\ (0 <= n)%Q /\ revenue r = fin rev
       /\ ((exists o, o ∈ orders /\ purchase_date o = Some (date r)
                      /\ is_Some (order_id o)) -> (1 <= n)%Q)
       /\ ((n == 0)%Q ->
           forall o, o ∈ orders -> purchase_date o = Some (date r) ->
                     order_id o = None).
Proof.
  unfold combine. intros H.
  apply list_elem_of_fmap in H as (d & -> & Hd). simpl.
  apply (proj1 (elem_of_group_keys _ _)) in Hd. split; [exact Hd|].
  set (group := filter (fun o => bool_decide (purchase_date o = Some d)) orders).
  assert (Hg : forall o id, o ∈ orders -> purchase_date o = Some d ->
                 order_id o = Some id ->
                 id ∈ remove_dups (omap order_id group)).
  { intros o id Ho Hod Hid. apply elem_of_remove_dups, list_elem_of_omap.
    exists o. split; [|exact Hid].
    apply list_elem_of_filter. split; [|exact Ho].
    apply bool_decide_pack. exact Hod. }
  set (rev := match rp with
              | Some _ => fillna0 _
              | None => fillna0 _
              end).
  assert (Hrev : exists q, rev = fin q).
  { subst rev. destruct rp; apply fillna0_fin. }
  destruct Hrev as [q Hq].
  exists (inject_Z (Z.of_nat (length (remove_dups (omap order_id group))))), q.
  split; [reflexivity|]. split; [unfold Qle; simpl; lia|].
  split; [exact Hq|]. split.
  - intros (o & Ho & Hod & [id Hid]).
    specialize (Hg o id Ho Hod Hid).
    destruct (remove_dups (omap order_id group));
      [apply elem_of_nil in Hg; contradiction|].
    unfold Qle. simpl. lia.
  - intros Hz o Ho Hod. destruct (order_id o) as [id|] eqn:Hid; [|reflexivity].
    specialize (Hg o id Ho Hod Hid).
    destruct (remove_dups (omap order_id group));
      [apply elem_of_nil in Hg; contradiction|].
    unfold Qeq in Hz. simpl in Hz. lia.
Qed.

Lemma reindex_dates (range : list Z) daily :
  date <$> reindex range daily = range.
Proof.
  unfold reindex. induction range as [|d t IH]; [reflexivity|].
  rewrite !fmap_cons. f_equal; [|exact IH].
  destruct (List.find _ daily) as [r|] eqn:F; simpl; [|reflexivity].
  apply List.find_some in F as [_ F]. now apply Z.eqb_eq in F.
Qed.

(** A row of the reindexed frame is a pre-fill row, or the NaN row of a day
    that has none. *)
Lemma reindex_row (range : list Z) daily (r : frame_row) :
  r ∈ reindex range daily ->
  r ∈ daily \/ (r = nan_row (date r) /\ date r ∉ date <$> daily).
Proof.
  unfold reindex. intros H. apply list_elem_of_fmap in H as (d & -> & _).
  destruct (List.find _ daily) as [r|] eqn:F; simpl.
  - left. apply List.find_some in F as [F _]. now apply list_elem_of_In.
  - right. split; [reflexivity|]. intros Hin.
    apply list_elem_of_fmap in Hin as (r & Hd & Hr).
    apply list_elem_of_In in Hr.
    pose proof (List.find_none _ _ F r Hr) as Hf. simpl in Hf.
    apply Z.eqb_neq in Hf. congruence.
Qed.

(** What the script computed when it returned a table. *)
Lemma build_daily_kpi_Ok (orders_file : option (list order))
    (items_file : option (list item)) (payments_file : option (list payment))
    (tbl : kpi_table) :
  build_daily_kpi orders_file items_file payments_file = Ok tbl ->
  exists orders items lo hi,
    let valid := dropna_timestamp orders in
    let daily :=
      Kpi.sort_values
        (combine valid (daily_revenue_items items valid)
           ((fun p => daily_revenue_payments p valid) <$> payments_file)) in
    orders_file = Some orders
    /\ items_file = Some items
    /\ date_min daily = Some lo
    /\ date_max daily = Some hi
    /\ out_rows tbl
       = recompute_aov
           <$> (fill_zeros (bool_decide (is_Some payments_file))
                  <$> reindex (date_range lo hi) daily).
Proof.
  unfold build_daily_kpi. intros H.
  destruct orders_file as [orders|]; [|discriminate H].
  case_bool_decide; [discriminate H|].
  destruct items_file as [items|]; [|discriminate H].
  destruct (date_min _) as [lo|] eqn:Elo; [|discriminate H].
  destruct (date_max _) as [hi|] eqn:Ehi; [|discriminate H].
  injection H as <-. exists orders, items, lo, hi. simpl.
  repeat (split; [assumption || reflexivity|]). reflexivity.
Qed.

(** The script returns a table as soon as one timestamp parses and the item
    file is there. *)
Lemma build_daily_kpi_returns orders (items : list item)
    (payments_file : option (list payment)) :
  purchase_days orders <> [] ->
  exists tbl, build_daily_kpi (Some orders) (Some items) payments_file = Ok tbl.
Proof.
  intros Hne. unfold build_daily_kpi.
  destruct (purchase_days orders) as [|d0 rest] eqn:Ed; [contradiction|].
  assert (Hd0 : d0 ∈ purchase_days (dropna_timestamp orders)).
  { rewrite purchase_days_dropna, Ed. apply list_elem_of_here. }
  rewrite bool_decide_eq_false_2.
  2:{ intros E. rewrite E in Hd0. apply elem_of_nil in Hd0. contradiction. }
  set (daily := Kpi.sort_values _).
  assert (Hdaily : daily <> []).
  { intros E.
    assert (Hin : d0 ∈ date <$> daily)
      by (subst daily; apply daily_dates; exact Hd0).
    rewrite E in Hin. apply elem_of_nil in Hin. contradiction. }
  destruct (date_min_spec daily Hdaily) as (lo & -> & _).
  destruct (date_max_spec daily Hdaily) as (hi & -> & _).
  eauto.
Qed.

(** A row of the exported table: a day with orders has a numeric count and
    revenue and the recomputed AOV; a day without is all zeros. *)
Lemma final_row (has_payments : bool) orders (ri : list (Z * pyfloat))
    (rp : option (list (Z * pyfloat))) (range : list Z) (r : daily_row) :
  r ∈ (recompute_aov
         <$> (fill_zeros has_payments
                <$> reindex range (Kpi.sort_values (combine orders ri rp)))) ->
  (date r ∈ purchase_days orders
   /\ exists n rev : Q,
        orders_count r = fin n /\ (0 <= n)%Q /\ revenue r = fin rev
        /\ ((exists o, o ∈ orders /\ purchase_date o = Some (date r)
                       /\ is_Some (order_id o)) -> (1 <= n)%Q)
        /\ ((n == 0)%Q ->
            forall o, o ∈ orders -> purchase_date o = Some (date r) ->
                      order_id o = None)
        /\ ((0 < n)%Q -> avg_order_value r = round2 (div64 (fin rev) (fin n)))
        /\ ((n == 0)%Q -> avg_order_value r = fin 0))
  \/ ((date r ∉ purchase_days orders)
      /\ zero_activity r
      /\ revenue_items r = fin 0
      /\ (has_payments = true -> revenue_payments r = fin 0)).
Proof.
  intros H. apply list_elem_of_fmap in H as (r1 & -> & H).
  apply list_elem_of_fmap in H as (r0 & -> & H).
  apply reindex_row in H as [H|[H Hno]].
  - left. apply (proj1 (elem_of_sort_values _ _)) in H.
    destruct (combine_row _ _ _ _ H)
      as (Hd & n & rev & Hn & Hle & Hrev & Hone & Hnone).
    simpl. split; [exact Hd|]. exists n, rev. rewrite Hn, Hrev. simpl.
    split; [reflexivity|]. split; [exact Hle|]. split; [reflexivity|].
    split; [exact Hone|]. split; [exact Hnone|].
    unfold fgtb, fltb, cmp2, fin. split.
    + intros Hpos. assert (E : Qle_bool n 0 = false).
      { apply (fleb_false n 0). exact Hpos. }
      rewrite E. reflexivity.
    + intros Hz. assert (E : Qle_bool n 0 = true).
      { apply Qle_bool_iff. rewrite Hz. apply Qle_refl. }
      rewrite E. reflexivity.
  - right. simpl. split.
    { intros Hin. apply Hno. apply daily_dates. exact Hin. }
    rewrite H. simpl. unfold zero_activity. simpl.
    split; [repeat split|]. split; [reflexivity|]. intros ->. reflexivity.
Qed.

Lemma final_dates (has_payments : bool) daily :
  date <$> (recompute_aov <$> (fill_zeros has_payments <$> daily))
  = date <$> daily.
Proof.
  induction daily as [|r t IH]; [reflexivity|].
  rewrite !fmap_cons. f_equal. exact IH.
Qed.

End Aggregator.

(** C2.  For orders with at least one parseable purchase timestamp, lo and
    hi being the least and the greatest observed purchase day, the
    aggregator returns a table whose dates are lo, lo + 1, ..., hi in this
    order: every calendar day of the range once, none outside; a day
    without orders is a zero-activity row (orders_count, revenue,
    canceled_orders and avg_order_value all 0), a day with an order that
    carries its order_id counts at least one. *)
Theorem calendar_range_filled (orders : list Kpi.order) (items : list Kpi.item)
    (payments_file : option (list Kpi.payment)) (lo hi : Z) :
  lo ∈ Kpi.purchase_days orders ->
  hi ∈ Kpi.purchase_days orders ->
  (forall d, d ∈ Kpi.purchase_days orders -> lo <= d <= hi) ->
  exists tbl,
    Kpi.build_daily_kpi (Some orders) (Some items) payments_file = Ok tbl
    /\ Kpi.date <$> Kpi.out_rows tbl = seqZ lo (hi - lo + 1)
    /\ NoDup (Kpi.date <$> Kpi.out_rows tbl)
    /\ (forall d, d ∈ Kpi.date <$> Kpi.out_rows tbl <-> lo <= d <= hi)
    /\ (forall r, r ∈ Kpi.out_rows tbl ->
          (Kpi.date r ∉ Kpi.purchase_days orders) -> Kpi.zero_activity r)
    /\ (forall r, r ∈ Kpi.out_rows tbl ->
          Kpi.date r ∈ Kpi.purchase_days orders ->
          exists n : Q,
            Kpi.orders_count r = fin n /\ (0 <= n)%Q
            /\ ((exists o, o ∈ orders
                           /\ Kpi.purchase_date o = Some (Kpi.date r)
                           /\ is_Some (Kpi.order_id o)) -> (1 <= n)%Q)).
Proof.
  intros Hlo Hhi Hall.
  destruct (build_daily_kpi_returns orders items payments_file) as [tbl Htbl].
  { intros E. rewrite E in Hlo. apply elem_of_nil in Hlo. contradiction. }
  exists tbl. split; [exact Htbl|].
  destruct (build_daily_kpi_Ok _ _ _ _ Htbl)
    as (orders' & items' & lo' & hi' & H).
  simpl in H. destruct H as (Eo & Ei & Emin & Emax & Erows).
  injection Eo as <-. injection Ei as <-.
  set (valid := Kpi.dropna_timestamp orders) in *.
  set (ri := Kpi.daily_revenue_items items valid) in *.
  set (rp := (fun p => Kpi.daily_revenue_payments p valid) <$> payments_file) in *.
  set (daily := Kpi.sort_values (Kpi.combine valid ri rp)) in *.
  assert (Hdates : forall d, d ∈ Kpi.date <$> daily <-> d ∈ Kpi.purchase_days orders).
  { intros d. subst daily. rewrite daily_dates. subst valid.
    now rewrite purchase_days_dropna. }
  assert (Hne : daily <> []).
  { intros E. apply Hdates in Hlo. rewrite E in Hlo.
    apply elem_of_nil in Hlo. contradiction. }
  assert (Elo : lo' = lo).
  { destruct (date_min_spec daily Hne) as (m & Hm & Hin & Hle).
    rewrite Emin in Hm. injection Hm as <-.
    apply Hdates in Hin. apply Hall in Hin.
    apply Hdates in Hlo. apply Hle in Hlo. lia. }
  assert (Ehi : hi' = hi).
  { destruct (date_max_spec daily Hne) as (m & Hm & Hin & Hle).
    rewrite Emax in Hm. injection Hm as <-.
    apply Hdates in Hin. apply Hall in Hin.
    apply Hdates in Hhi. apply Hle in Hhi. lia. }
  subst lo' hi'.
  assert (Hrange : Kpi.date <$> Kpi.out_rows tbl = seqZ lo (hi - lo + 1)).
  { rewrite Erows, final_dates, reindex_dates. reflexivity. }
  split; [exact Hrange|]. rewrite Hrange.
  split; [apply NoDup_seqZ|].
  split; [intros d; rewrite elem_of_seqZ; lia|].
  split.
  - intros r Hr Hno. rewrite Erows in Hr.
    apply final_row in Hr as [(Hin & _)|(_ & Hz & _)]; [|exact Hz].
    subst valid. rewrite purchase_days_dropna in Hin. contradiction.
  - intros r Hr Hin. rewrite Erows in Hr.
    apply final_row in Hr as [(_ & n & rev & Hn & Hle & _ & Hone & _)|(Hno & _)].
    + exists n. split; [exact Hn|]. split; [exact Hle|].
      intros (o & Ho & Hod & Hid). apply Hone. exists o.
      split; [exact (elem_of_dropna_timestamp o orders _ Ho Hod)|]. auto.
    + subst valid. rewrite purchase_days_dropna in Hno. contradiction.
Qed.

(** C2 on the sample orders: days 100 to 103, the days 101 and 102 filled. *)
Lemma calendar_range_filled_witness :
  exists tbl,
    Kpi.build_daily_kpi (Some Samples.some_orders) (Some Samples.some_items) None
    = Ok tbl
    /\ Kpi.date <$> Kpi.out_rows tbl = [100; 101; 102; 103].
Proof.
  destruct (calendar_range_filled Samples.some_orders Samples.some_items None
              100 103) as (tbl & Htbl & Hdates & _).
  - apply (bool_decide_unpack _). vm_compute. exact I.
  - apply (bool_decide_unpack _). vm_compute. exact I.
  - intros d Hd. apply list_elem_of_In in Hd. simpl in Hd.
    destruct Hd as [<-|[<-|[<-|[]]]]; lia.
  - exists tbl. split; [exact Htbl | exact Hdates].
Defined.

(** An order without an order_id, with an item row without one: the day
    counts no order and keeps the revenue; the division of line 125 left an
    infinity in the avg_order_value column, which the fill keeps and the
    recomputation replaces by 0. *)
Lemma zero_order_day_with_revenue :
  exists (tbl : Kpi.kpi_table) (r : Kpi.daily_row),
    Kpi.build_daily_kpi (Some Samples.order_without_id)
      (Some Samples.item_without_id) None = Ok tbl
    /\ r ∈ Kpi.out_rows tbl
    /\ Kpi.orders_count r = fin 0
    /\ Kpi.revenue r = fin 10
    /\ Kpi.revenue r <> fin 0
    /\ Kpi.avg_order_value r = fin 0
    /\ Kpi.avg_order_value
         <$> (Kpi.fill_zeros false
                <$> Kpi.reindex (Kpi.date_range 100 100)
                      (Kpi.sort_values
                         (Kpi.combine Samples.order_without_id
                            (Kpi.daily_revenue_items Samples.item_without_id
                               Samples.order_without_id) None)))
       = [ NpInf false ].
Proof.
  eexists. eexists. split; [vm_compute; reflexivity|].
  split; [apply list_elem_of_here|]. vm_compute.
  repeat split. discriminate.
Qed.

(** C3.  Every row of the exported table has a numeric, non-negative order
    count and a numeric revenue.  Its avg_order_value is Python's
    round(revenue / orders_count, 2) on the doubles of the row's two cells
    when the count is positive, and 0 when the count is 0, whatever line
    125 had left in the column.  A day that counts no order has revenue 0
    as well, unless one of its orders has an empty order_id. *)
Theorem aov_recomputed_after_fill (orders : list Kpi.order)
    (items_file : option (list Kpi.item))
    (payments_file : option (list Kpi.payment)) (tbl : Kpi.kpi_table)
    (r : Kpi.daily_row) :
  Kpi.build_daily_kpi (Some orders) items_file payments_file = Ok tbl ->
  r ∈ Kpi.out_rows tbl ->
  exists n rev : Q,
    Kpi.orders_count r = fin n /\ Kpi.revenue r = fin rev /\ (0 <= n)%Q
    /\ ((0 < n)%Q ->
        Kpi.avg_order_value r
        = round2 (div64 (Kpi.revenue r) (Kpi.orders_count r)))
    /\ ((n == 0)%Q -> Kpi.avg_order_value r = fin 0)
    /\ ((n == 0)%Q ->
        (forall o, o ∈ orders -> Kpi.purchase_date o = Some (Kpi.date r) ->
                   is_Some (Kpi.order_id o)) ->
        Kpi.revenue r = fin 0).
Proof.
  intros Htbl Hr.
  destruct (build_daily_kpi_Ok _ _ _ _ Htbl)
    as (orders' & items & lo & hi & H).
  simpl in H. destruct H as (Eo & _ & _ & _ & Erows).
  injection Eo as <-. rewrite Erows in Hr.
  apply final_row in Hr
    as [(Hd & n & rev & Hn & Hle & Hrev & _ & Hnone & Havg & Hzero)
       |(_ & (Hn & Hrev & _ & Havg) & _)].
  - exists n, rev. split; [exact Hn|]. split; [exact Hrev|].
    split; [exact Hle|].
    split; [intros Hpos; rewrite Hn, Hrev; exact (Havg Hpos)|].
    split; [exact Hzero|].
    intros Hz Hids. exfalso.
    apply elem_of_purchase_days in Hd as (o & Ho & Hod).
    assert (Hin : o ∈ orders).
    { unfold Kpi.dropna_timestamp in Ho.
      apply list_elem_of_filter in Ho as [_ Ho]. exact Ho. }
    destruct (Hids o Hin Hod) as [id Hid].
    rewrite (Hnone Hz o Ho Hod) in Hid. discriminate Hid.
  - exists 0%Q, 0%Q. split; [exact Hn|]. split; [exact Hrev|].
    split; [lra|]. split; [intros L; lra|].
    split; [intros _; exact Havg|]. intros _ _. exact Hrev.
Qed.

(** C3 on two orders of one day with a single item of 1.09: the average is
    the double 0.545..., above the tie, and the exported cell is 0.55. *)
Lemma aov_recomputed_after_fill_witness :
  exists (tbl : Kpi.kpi_table) (r : Kpi.daily_row),
    Kpi.build_daily_kpi (Some Samples.two_orders) (Some Samples.one_item) None
    = Ok tbl
    /\ r ∈ Kpi.out_rows tbl
    /\ Kpi.orders_count r = fin 2
    /\ Kpi.avg_order_value r = fin (55 # 100).
Proof.
  destruct (Kpi.build_daily_kpi (Some Samples.two_orders)
              (Some Samples.one_item) None) as [tbl|x] eqn:E;
    [|vm_compute in E; discriminate E].
  destruct (Kpi.out_rows tbl) as [|r rest] eqn:Er;
    [vm_compute in E; injection E as <-; discriminate Er|].
  assert (Hr : r ∈ Kpi.out_rows tbl) by (rewrite Er; apply list_elem_of_here).
  destruct (aov_recomputed_after_fill Samples.two_orders
              (Some Samples.one_item) None tbl r E Hr)
    as (n & rev & Hn & _ & _ & Havg & _).
  exists tbl, r. split; [reflexivity|]. split; [exact Hr|].
  vm_compute in E. injection E as <-. injection Er as <- _.
  injection Hn as <-. split; [reflexivity|].
  rewrite Havg by reflexivity. vm_compute. reflexivity.
Defined.

(** ** The end-to-end example of the specification *)

(** Ten days of 100 orders and then a day of 80, the drop day on the
    simulation start: the order change is -20%, a high orders signal, and the
    status is anomaly_detected. *)
Example orders_drop_end_to_end :
  let r := main {| clock := Samples.one_o_clock; webhook := Responded 200 |}
                (Samples.sample_world NoStateFile) in
  run_outcome r = Returned
  /\ (p_status <$> posted r) = [ Anomaly_detected ]
  /\ (p_date <$> posted r) = [ "2017-01-12"%string ]
  /\ ((fun p => (sig_severity <$> signals_of M_orders (signals p))) <$> posted r)
     = [ [ High ] ].
Proof. vm_compute. repeat split. Qed.

(** ** The classifier on binary64 *)

Section Doubles.

Import Floats.PrimFloat Floats.SpecFloat Floats.FloatOps Floats.FloatAxioms.

Local Open Scope string_scope.

Implicit Types (c today baseline medium high : float).








(** The percentage of an infinite change is infinite, and [round] raises on
    it. *)
Lemma py_round_infinity c (s : bool) :
  Prim2SF c = S754_infinity s ->
  Binary64.py_round (Binary64.percent c) = Raise OverflowError.
Proof.
  intros Hc. unfold Binary64.py_round, Binary64.percent.
  rewrite mul_spec, Hc. reflexivity.
Qed.

End Doubles.

(** [round53] on the sample quotients is the double the machine's division
    returns. *)
Example round53_is_the_machine_rounding :
  Forall (fun qx => Binary64.denotes (snd qx) (round53 (fst qx)))
         Binary64.quotients.
Proof.
  repeat constructor;
    (eexists; split; [vm_compute; reflexivity | vm_compute; reflexivity]).
Qed.





(** * Further properties of the code *)

(** ** The four rules *)

Section Rules.

Local Open Scope string_scope.

(** The signal list is the concatenation of what the four rules emitted,
    each on its own percentage change. *)
Lemma detect_signals_parts (row : baseline_row) :
  exists rc oc ac cc s_rev s_ord s_aov s_can,
    pct_change (revenue (today row)) (base_revenue row) = Ok rc
    /\ pct_change (orders_count (today row)) (base_orders_count row) = Ok oc
    /\ pct_change (avg_order_value (today row)) (base_avg_order_value row) = Ok ac
    /\ pct_change (canceled_orders (today row)) (base_canceled_orders row) = Ok cc
    /\ drop_rule M_revenue "Revenue" TH.revenue_drop_medium
         TH.revenue_drop_high rc = Ok s_rev
    /\ drop_rule M_orders "Orders" TH.orders_drop_medium
         TH.orders_drop_high oc = Ok s_ord
    /\ drop_rule M_avg_order_value "AOV" TH.aov_drop_medium
         TH.aov_drop_high ac = Ok s_aov
    /\ spike_rule cc = Ok s_can
    /\ detect_signals row
       = Ok (List.app s_rev (List.app s_ord (List.app s_aov s_can)))
    /\ signals_of M_revenue
         (List.app s_rev (List.app s_ord (List.app s_aov s_can))) = s_rev
    /\ signals_of M_orders
         (List.app s_rev (List.app s_ord (List.app s_aov s_can))) = s_ord
    /\ signals_of M_avg_order_value
         (List.app s_rev (List.app s_ord (List.app s_aov s_can))) = s_aov
    /\ signals_of M_canceled_orders
         (List.app s_rev (List.app s_ord (List.app s_aov s_can))) = s_can.
Proof.
  destruct (pct_change_returns (revenue (today row)) (base_revenue row))
    as [rc Hrc].
  destruct (pct_change_returns (orders_count (today row)) (base_orders_count row))
    as [oc Hoc].
  destruct (pct_change_returns (avg_order_value (today row))
              (base_avg_order_value row)) as [ac Hac].
  destruct (pct_change_returns (canceled_orders (today row))
              (base_canceled_orders row)) as [cc Hcc].
  destruct (drop_rule_returns M_revenue "Revenue" TH.revenue_drop_medium
              TH.revenue_drop_high rc) as (s_rev & Hrev & Frev).
  destruct (drop_rule_returns M_orders "Orders" TH.orders_drop_medium
              TH.orders_drop_high oc) as (s_ord & Hord & Ford).
  destruct (drop_rule_returns M_avg_order_value "AOV" TH.aov_drop_medium
              TH.aov_drop_high ac) as (s_aov & Haov & Faov).
  destruct (spike_rule_returns cc) as (s_can & Hcan & Fcan).
  exists rc, oc, ac, cc, s_rev, s_ord, s_aov, s_can.
  repeat (split; [assumption|]).
  split.
  { unfold detect_signals. rewrite Hrc. simpl. rewrite Hrev. simpl.
    rewrite Hoc. simpl. rewrite Hord. simpl. rewrite Hac. simpl.
    rewrite Haov. simpl. rewrite Hcc. simpl. rewrite Hcan. reflexivity. }
  unfold signals_of. rewrite !filter_app.
  fold (signals_of M_revenue s_rev) (signals_of M_revenue s_ord)
       (signals_of M_revenue s_aov) (signals_of M_revenue s_can)
       (signals_of M_orders s_rev) (signals_of M_orders s_ord)
       (signals_of M_orders s_aov) (signals_of M_orders s_can)
       (signals_of M_avg_order_value s_rev) (signals_of M_avg_order_value s_ord)
       (signals_of M_avg_order_value s_aov) (signals_of M_avg_order_value s_can)
       (signals_of M_canceled_orders s_rev) (signals_of M_canceled_orders s_ord)
       (signals_of M_canceled_orders s_aov) (signals_of M_canceled_orders s_can).
  rewrite (signals_of_same _ _ Frev), (signals_of_same _ _ Ford),
    (signals_of_same _ _ Faov), (signals_of_same _ _ Fcan).
  rewrite (signals_of_other M_revenue M_orders s_ord),
    (signals_of_other M_revenue M_avg_order_value s_aov),
    (signals_of_other M_revenue M_canceled_orders s_can),
    (signals_of_other M_orders M_revenue s_rev),
    (signals_of_other M_orders M_avg_order_value s_aov),
    (signals_of_other M_orders M_canceled_orders s_can),
    (signals_of_other M_avg_order_value M_revenue s_rev),
    (signals_of_other M_avg_order_value M_orders s_ord),
    (signals_of_other M_avg_order_value M_canceled_orders s_can),
    (signals_of_other M_canceled_orders M_revenue s_rev),
    (signals_of_other M_canceled_orders M_orders s_ord),
    (signals_of_other M_canceled_orders M_avg_order_value s_aov);
    try assumption; try discriminate.
  rewrite !app_nil_r. simpl. repeat split; reflexivity.
Qed.

Lemma spike_rule_number (x : Q) :
  spike_rule (Some x)
  = Ok (if Qle_bool TH.cancel_spike_medium x
        then [ {| sig_metric := M_canceled_orders; sig_direction := Up;
                  sig_severity :=
                    if Qle_bool TH.cancel_spike_high x then High else Medium;
                  sig_details :=
                    "Cancellations +" ++ str_of_Z (rint (x * 100)) ++ vs_avg |} ]
        else []).
Proof.
  unfold spike_rule, fgeb, fleb, fin; simpl.
  destruct (Qle_bool TH.cancel_spike_medium x); reflexivity.
Qed.

(** A rule emits nothing on a change of 0 and on a NaN change. *)
Lemma drop_rule_silent (m : metric) (label : string) (medium high : Q) :
  (0 < medium)%Q ->
  drop_rule m label medium high (fin 0) = Ok []
  /\ drop_rule m label medium high nan = Ok [].
Proof.
  intros Hm. split; [|reflexivity].
  unfold fin. rewrite drop_rule_number.
  replace (Qle_bool 0 (- medium)) with false; [reflexivity|].
  symmetry. apply (fleb_false 0 (- medium)). lra.
Qed.

Lemma spike_rule_silent :
  spike_rule (fin 0) = Ok [] /\ spike_rule nan = Ok [].
Proof. split; reflexivity. Qed.

(** The change of a NaN value, and the change against a zero baseline, make
    no signal: they are NaN or 0. *)
Lemma pct_change_quiet (today baseline c : pyfloat) :
  pct_change today baseline = Ok c ->
  today = nan \/ (exists q, baseline = fin q /\ (q == 0)%Q) ->
  c = nan \/ c = fin 0.
Proof.
  intros H [->|(q & -> & Hq)].
  - destruct baseline as [q|];
      [|right; rewrite pct_change_nan in H; now injection H as <-].
    destruct (Qeq_dec q 0) as [Hq|Hq].
    + rewrite (pct_change_zero nan q Hq) in H. right. now injection H as <-.
    + destruct (pct_change_quotient nan q Hq) as [H1 H2].
      rewrite H1, H2 in H. left. now injection H as <-.
  - unfold fin in H. rewrite (pct_change_zero today q Hq) in H.
    right. now injection H as <-.
Qed.

(** A rule emits at most one signal, of its own metric and direction. *)
Lemma drop_rule_shape (m : metric) (label : string) (medium high : Q)
    (change : pyfloat) (l : list signal) :
  drop_rule m label medium high change = Ok l ->
  l = [] \/ exists sev details, l = [ Signal m Down sev details ].
Proof.
  destruct change as [x|]; [|intros [= <-]; now left].
  rewrite drop_rule_number. intros [= <-].
  destruct (Qle_bool x (- medium)); [right; eauto | now left].
Qed.

Lemma spike_rule_shape (change : pyfloat) (l : list signal) :
  spike_rule change = Ok l ->
  l = [] \/ exists sev details, l = [ Signal M_canceled_orders Up sev details ].
Proof.
  destruct change as [x|]; [|intros [= <-]; now left].
  rewrite spike_rule_number. intros [= <-].
  destruct (Qle_bool TH.cancel_spike_medium x); [right; eauto | now left].
Qed.

End Rules.





(** The largest double over the smallest: the change is infinite. *)
Example cancellation_overflow :
  Binary64.cancel_rule Binary64.largest Binary64.smallest
  = Raise OverflowError.
Proof. vm_compute. reflexivity. Qed.

(** X3.  A metric whose baseline is zero, or whose value today is NaN,
    gives no signal, whatever the other number is: the change is taken as 0,
    or is NaN and fails every comparison. *)
Theorem zero_baseline_or_nan_is_silent (row : baseline_row)
    (sigs : list signal) :
  detect_signals row = Ok sigs ->
  (revenue (today row) = nan
   \/ (exists q, base_revenue row = fin q /\ (q == 0)%Q) ->
   signals_of M_revenue sigs = [])
  /\ (orders_count (today row) = nan
      \/ (exists q, base_orders_count row = fin q /\ (q == 0)%Q) ->
      signals_of M_orders sigs = [])
  /\ (avg_order_value (today row) = nan
      \/ (exists q, base_avg_order_value row = fin q /\ (q == 0)%Q) ->
      signals_of M_avg_order_value sigs = [])
  /\ (canceled_orders (today row) = nan
      \/ (exists q, base_canceled_orders row = fin q /\ (q == 0)%Q) ->
      signals_of M_canceled_orders sigs = []).
Proof.
  intros Hs.
  destruct (detect_signals_parts row)
    as (rc & oc & ac & cc & s_rev & s_ord & s_aov & s_can & Hrc & Hoc & Hac
        & Hcc & Hrev & Hord & Haov & Hcan & Hall & Frev & Ford & Faov & Fcan).
  rewrite Hs in Hall. injection Hall as ->.
  rewrite Frev, Ford, Faov, Fcan.
  split; [|split; [|split]]; intros H.
  - destruct (drop_rule_silent M_revenue "Revenue" TH.revenue_drop_medium
                TH.revenue_drop_high) as [H0 Hn]; [reflexivity|].
    destruct (pct_change_quiet _ _ _ Hrc H) as [->| ->]; congruence.
  - destruct (drop_rule_silent M_orders "Orders" TH.orders_drop_medium
                TH.orders_drop_high) as [H0 Hn]; [reflexivity|].
    destruct (pct_change_quiet _ _ _ Hoc H) as [->| ->]; congruence.
  - destruct (drop_rule_silent M_avg_order_value "AOV" TH.aov_drop_medium
                TH.aov_drop_high) as [H0 Hn]; [reflexivity|].
    destruct (pct_change_quiet _ _ _ Hac H) as [->| ->]; congruence.
  - destruct spike_rule_silent as [H0 Hn].
    destruct (pct_change_quiet _ _ _ Hcc H) as [->| ->]; congruence.
Qed.

(** X4.  The signal list of a row holds at most four signals, at most one
    per metric and in the order revenue, orders, avg_order_value,
    canceled_orders; a cancellation signal points up, every other one
    down. *)
Theorem signals_in_fixed_order (row : baseline_row) (sigs : list signal) :
  detect_signals row = Ok sigs ->
  (length sigs <= 4)%nat
  /\ (sig_metric <$> sigs)
     `sublist_of` [ M_revenue; M_orders; M_avg_order_value; M_canceled_orders ]
  /\ Forall (fun s => sig_direction s
                      = match sig_metric s with
                        | M_canceled_orders => Up
                        | _ => Down
                        end) sigs.
Proof.
  intros Hs.
  destruct (detect_signals_parts row)
    as (rc & oc & ac & cc & s_rev & s_ord & s_aov & s_can & Hrc & Hoc & Hac
        & Hcc & Hrev & Hord & Haov & Hcan & Hall & _).
  rewrite Hs in Hall. injection Hall as ->.
  apply drop_rule_shape in Hrev, Hord, Haov. apply spike_rule_shape in Hcan.
  destruct Hrev as [->|(? & ? & ->)], Hord as [->|(? & ? & ->)],
    Haov as [->|(? & ? & ->)], Hcan as [->|(? & ? & ->)]; simpl;
    (split; [lia|]);
    (split; [auto 8 using sublist_nil, sublist_cons, sublist_skip
            | repeat constructor]).
Qed.

Lemma zero_baseline_or_nan_is_silent_witness :
  exists sigs,
    detect_signals MoreSamples.cancellations_from_none = Ok sigs
    /\ signals_of M_canceled_orders sigs = []
    /\ signals_of M_revenue sigs = [].
Proof.
  destruct (detect_signals MoreSamples.cancellations_from_none)
    as [sigs|x] eqn:E; [|vm_compute in E; discriminate E].
  destruct (zero_baseline_or_nan_is_silent MoreSamples.cancellations_from_none
              sigs E) as (Hr & _ & _ & Hc).
  exists sigs. split; [reflexivity|]. split.
  - apply Hc. right. exists 0%Q. split; reflexivity.
  - apply Hr. left. reflexivity.
Defined.

Lemma signals_in_fixed_order_witness :
  exists sigs,
    detect_signals Samples.revenue_85_of_100 = Ok sigs
    /\ (sig_metric <$> sigs)
       `sublist_of` [ M_revenue; M_orders; M_avg_order_value; M_canceled_orders ].
Proof.
  destruct (detect_signals Samples.revenue_85_of_100) as [sigs|x] eqn:E;
    [|vm_compute in E; discriminate E].
  destruct (signals_in_fixed_order Samples.revenue_85_of_100 sigs E)
    as (_ & H & _).
  exists sigs. split; [reflexivity | exact H].
Defined.

(** ** Sorting and eligibility *)

Section Eligibility.

Implicit Types (table df : list metric_row) (r : metric_row).

Lemma date_leb_total (a b : option Z) :
  date_leb a b = true \/ date_leb b a = true.
Proof.
  destruct a as [x|], b as [y|]; simpl; auto.
  destruct (Z.leb_spec x y), (Z.leb_spec y x); auto; lia.
Qed.

Lemma date_leb_trans (a b c : option Z) :
  date_leb a b = true -> date_leb b c = true -> date_leb a c = true.
Proof.
  destruct a as [x|], b as [y|], c as [z|]; simpl; try congruence.
  rewrite !Z.leb_le. lia.
Qed.

Lemma insert_by_date_perm r df : insert_by_date r df ≡ₚ r :: df.
Proof.
  induction df as [|h t IH]; simpl; [reflexivity|].
  destruct (date_leb (date r) (date h)); [reflexivity|].
  rewrite IH. apply Permutation_swap.
Qed.

Lemma sort_values_perm table : sort_values table ≡ₚ table.
Proof.
  unfold sort_values. induction table as [|h t IH]; simpl; [reflexivity|].
  rewrite insert_by_date_perm. now rewrite IH.
Qed.

Lemma insert_by_date_sorted r df :
  StronglySorted Ordering.date_order df -> StronglySorted Ordering.date_order (insert_by_date r df).
Proof.
  induction 1 as [|h t Ht IH Hh]; simpl; [repeat constructor|].
  destruct (date_leb (date r) (date h)) eqn:E.
  - constructor; [constructor; assumption|].
    constructor; [exact E|].
    eapply Forall_impl; [exact Hh|]. intros x Hx.
    unfold Ordering.date_order in *. eapply date_leb_trans; eassumption.
  - constructor; [exact IH|].
    rewrite insert_by_date_perm.
    constructor; [|exact Hh].
    unfold Ordering.date_order.
    destruct (date_leb_total (date r) (date h)); congruence.
Qed.

Lemma sort_values_sorted table : StronglySorted Ordering.date_order (sort_values table).
Proof.
  unfold sort_values. induction table as [|h t IH]; simpl; [constructor|].
  now apply insert_by_date_sorted.
Qed.

Lemma StronglySorted_lookup_lt {A : Type} (R : A -> A -> Prop) (l : list A)
    (i j : nat) (x y : A) :
  StronglySorted R l -> l !! i = Some x -> l !! j = Some y -> (i < j)%nat ->
  R x y.
Proof.
  intros Hs. revert i j. induction Hs as [|h t Ht IH Hh]; intros i j Hi Hj Hlt.
  - discriminate Hi.
  - destruct j as [|j]; [lia|]. destruct i as [|i].
    + injection Hi as <-. simpl in Hj.
      rewrite Forall_forall in Hh. apply Hh.
      apply list_elem_of_lookup. eauto.
    + apply (IH i j); [exact Hi | exact Hj | lia].
Qed.

(** A daily table is in sorted order already. *)
Lemma sort_values_daily (d0 : Z) table :
  daily_from d0 table -> sort_values table = table.
Proof.
  revert d0. induction table as [|r t IH]; intros d0 Hd; [reflexivity|].
  apply daily_from_tail in Hd as [Hr Ht].
  unfold sort_values in *. simpl. rewrite (IH _ Ht).
  destruct t as [|h t']; [reflexivity|]. simpl.
  apply daily_from_tail in Ht as [Hh _]. rewrite Hr, Hh. simpl.
  destruct (Z.leb_spec d0 (d0 + 1)); [reflexivity | lia].
Qed.

Lemma add_baselines_length df : length (add_baselines df) = length df.
Proof. unfold add_baselines. apply length_imap. Qed.

(** A row with baselines has at least [ROLLING_DAYS] rows before it. *)
Lemma has_baselines_position df (i : nat) (b : baseline_row) :
  add_baselines df !! i = Some b -> has_baselines b = true ->
  (ROLLING_DAYS <= i)%nat.
Proof.
  intros Hi Hb.
  destruct (add_baselines_lookup df i b Orders_count Hi) as [_ H].
  simpl in H. destruct (Nat.ltb_spec i ROLLING_DAYS) as [Hlt|]; [|assumption].
  unfold has_baselines in Hb. rewrite H in Hb. discriminate Hb.
Qed.

Lemma filter_none {A : Type} (P : A -> Prop) `{!forall x, Decision (P x)}
    (l : list A) :
  (forall x, x ∈ l -> ~ P x) -> filter P l = [].
Proof.
  induction l as [|x t IH]; intros Hno; [reflexivity|].
  rewrite filter_cons_False by (apply Hno; left).
  apply IH. intros y Hy. apply Hno. now right.
Qed.

End Eligibility.

(** X5.  [sort_values] keeps every row, puts the rows in ascending order of
    their dates with the unparseable dates last (after a row without a date
    come only rows without a date), and leaves a daily table as it is. *)
Theorem sort_values_sorts (table : list metric_row) :
  sort_values table ≡ₚ table
  /\ StronglySorted (fun a b => date_leb (date a) (date b) = true)
       (sort_values table)
  /\ (forall (i j : nat) r r',
        sort_values table !! i = Some r -> sort_values table !! j = Some r' ->
        (i < j)%nat ->
        (date r = None -> date r' = None)
        /\ (forall d d', date r = Some d -> date r' = Some d' -> d <= d'))
  /\ (forall d0, daily_from d0 table -> sort_values table = table).
Proof.
  split; [apply sort_values_perm|]. split; [apply sort_values_sorted|].
  split; [|intros d0; apply sort_values_daily].
  intros i j r r' Hi Hj Hlt.
  pose proof (StronglySorted_lookup_lt _ _ i j r r'
                (sort_values_sorted table) Hi Hj Hlt) as Ho.
  unfold Ordering.date_order in Ho. split.
  - intros Hn. rewrite Hn in Ho. destruct (date r'); [discriminate Ho | reflexivity].
  - intros d d' Hd Hd'. rewrite Hd, Hd' in Ho. now apply Z.leb_le.
Qed.

Lemma sort_values_sorts_witness :
  sort_values Samples.steady_then_drop = Samples.steady_then_drop.
Proof.
  destruct (sort_values_sorts Samples.steady_then_drop) as (_ & _ & _ & H).
  apply (H 17168). vm_compute. reflexivity.
Defined.

(** X6.  The eligible days are rows of the sorted table in their order; each
    has at least ROLLING_DAYS rows before it, a date on or after
    SIM_START_DATE and four baselines that are numbers; so a table of n rows
    has at most n - ROLLING_DAYS eligible days, and the rows of the first
    baseline window and the rows without a date are never evaluated. *)
Theorem candidates_are_eligible (table : list metric_row) :
  candidates_of table `sublist_of` add_baselines (sort_values table)
  /\ (length (candidates_of table) <= length table - ROLLING_DAYS)%nat
  /\ (forall b, b ∈ candidates_of table ->
        exists (i : nat) (d : Z),
          add_baselines (sort_values table) !! i = Some b
          /\ (ROLLING_DAYS <= i)%nat
          /\ today b ∈ table
          /\ date (today b) = Some d
          /\ SIM_START_DATE <= d
          /\ forall c, base c b <> nan).
Proof.
  set (l := add_baselines (sort_values table)).
  assert (Hlen : length l = length table).
  { subst l. rewrite add_baselines_length.
    apply Permutation_length, sort_values_perm. }
  split; [|split].
  - unfold candidates_of. fold l.
    etransitivity; apply sublist_filter.
  - unfold candidates_of. fold l.
    etransitivity; [apply length_filter|].
    rewrite <- (take_drop ROLLING_DAYS l), filter_app.
    rewrite (filter_none _ (take ROLLING_DAYS l)).
    + simpl. etransitivity; [apply length_filter|].
      rewrite length_drop. lia.
    + intros b Hb Hhas. apply elem_of_take in Hb as (i & Hi & Hlt).
      apply Is_true_true in Hhas.
      pose proof (has_baselines_position _ _ _ Hi Hhas). lia.
  - intros b Hb.
    destruct (candidates_eligible table b Hb) as (Hhas & d & Hd & Hsim).
    unfold candidates_of in Hb. fold l in Hb.
    apply list_elem_of_filter in Hb as [_ Hb].
    apply list_elem_of_filter in Hb as [_ Hb].
    apply list_elem_of_lookup in Hb as [i Hi].
    exists i, d. split; [exact Hi|].
    split; [exact (has_baselines_position _ _ _ Hi Hhas)|].
    split.
    { destruct (add_baselines_lookup _ _ _ Orders_count Hi) as [Ht _].
      rewrite <- (sort_values_perm table).
      apply list_elem_of_lookup. eauto. }
    split; [exact Hd|]. split; [exact Hsim|].
    intros c Hc. unfold has_baselines in Hhas.
    destruct c; simpl in Hc; rewrite Hc in Hhas; simpl in Hhas;
      rewrite ?andb_false_r in Hhas; discriminate Hhas.
Qed.

Lemma candidates_are_eligible_witness :
  exists d, date (today Samples.drop_day) = Some d /\ SIM_START_DATE <= d.
Proof.
  destruct (candidates_are_eligible Samples.steady_then_drop) as (_ & _ & H).
  destruct (H Samples.drop_day) as (i & d & _ & _ & _ & Hd & Hs & _).
  - vm_compute. apply list_elem_of_here.
  - exists d. split; [exact Hd | exact Hs].
Defined.

(** ** The state document *)

Section StateDocument.

Implicit Types (w : world) (e : env) (now : timestamp) (ev : evaluation).

Lemma evaluate_cursor_raises now w (table : list metric_row) (x : exn) :
  read_data (data w) = Ok table ->
  candidates_of table <> [] ->
  state_cursor (load_state (state w)) = Raise x ->
  evaluate now w = Raise x.
Proof.
  intros Ht Hne Hc. unfold evaluate. rewrite Ht. simpl.
  rewrite bool_decide_eq_false_2 by exact Hne. rewrite Hc. reflexivity.
Qed.

Lemma evaluate_index_raises now w (table : list metric_row) (c : Z) (x : exn) :
  read_data (data w) = Ok table ->
  candidates_of table <> [] ->
  state_cursor (load_state (state w)) = Ok c ->
  iloc (candidates_of table) (wrap (length (candidates_of table)) c) = Raise x ->
  evaluate now w = Raise x.
Proof.
  intros Ht Hne Hc Hi. unfold evaluate. rewrite Ht. simpl.
  rewrite bool_decide_eq_false_2 by exact Hne. rewrite Hc. simpl.
  rewrite Hi. reflexivity.
Qed.


Lemma main_raises e w (x : exn) :
  evaluate (clock e) w = Raise x ->
  main e w = {| run_outcome := Raised x; run_world := w; run_events := [] |}.
Proof. intros H. unfold main. now rewrite H. Qed.


(** What an invocation does depends on the state file only through the
    cursor read from it. *)
Lemma evaluate_same_cursor now w1 w2 :
  data w1 = data w2 ->
  state_cursor (load_state (state w1)) = state_cursor (load_state (state w2)) ->
  match evaluate now w1, evaluate now w2 with
  | Ok ev1, Ok ev2 =>
      ev_row ev1 = ev_row ev2 /\ ev_cursor ev1 = ev_cursor ev2
      /\ ev_payload ev1 = ev_payload ev2
  | Raise x1, Raise x2 => x1 = x2
  | _, _ => False
  end.
Proof.
  intros Hd Hc. unfold evaluate. rewrite Hd, Hc.
  destruct (read_data (data w2)) as [table|x]; simpl; [|reflexivity].
  case_bool_decide; [reflexivity|].
  destruct (state_cursor (load_state (state w2))) as [c|x]; simpl;
    [|reflexivity].
  destruct (iloc _ _) as [row|x]; simpl; [|reflexivity].
  destruct (date (today row)) as [d|]; simpl; [|reflexivity].
  destruct (detect_signals row) as [sigs|x]; simpl; [|reflexivity].
  destruct (summary_lines _ _ _ _) as [lines|x]; simpl; [|reflexivity].
  repeat split; reflexivity.
Qed.

End StateDocument.

(** X7.  With a readable table that has eligible days: a state document that
    is not an object makes the invocation raise AttributeError, a null
    cursor TypeError, and a cursor below -N (N eligible days) IndexError;
    each time nothing is printed or posted and the state file stays as it
    was. *)
Theorem broken_state_is_fatal (e : env) (w : world) (table : list metric_row) :
  read_data (data w) = Ok table ->
  candidates_of table <> [] ->
  (state w = Stored JOther ->
   main e w = {| run_outcome := Raised AttributeError; run_world := w;
                 run_events := [] |})
  /\ (forall d, state w = Stored (JObject d) ->
        d !! "cursor"%string = Some JNull ->
        main e w = {| run_outcome := Raised TypeError; run_world := w;
                      run_events := [] |})
  /\ (forall d c, state w = Stored (JObject d) ->
        d !! "cursor"%string = Some (JInt c) ->
        c < - Z.of_nat (length (candidates_of table)) ->
        main e w = {| run_outcome := Raised IndexError; run_world := w;
                      run_events := [] |}).
Proof.
  intros Ht Hne. split; [|split].
  - intros Hs. apply main_raises.
    apply (evaluate_cursor_raises _ _ table); [assumption..|].
    now rewrite Hs.
  - intros d Hs Hd. apply main_raises.
    apply (evaluate_cursor_raises _ _ table); [assumption..|].
    rewrite Hs. simpl. now rewrite Hd.
  - intros d c Hs Hd Hlt. apply main_raises.
    apply (evaluate_index_raises _ _ table c); [assumption..| |].
    + rewrite Hs. simpl. now rewrite Hd.
    + unfold wrap, iloc.
      destruct (Z.leb_spec (Z.of_nat (length (candidates_of table))) c);
        [lia|].
      destruct (Z.ltb_spec c 0); [|lia].
      destruct (Z.ltb_spec (c + Z.of_nat (length (candidates_of table))) 0);
        [reflexivity | lia].
Qed.

Lemma broken_state_is_fatal_witness :
  let w := Samples.sample_world (Stored JOther) in
  let e := {| clock := Samples.one_o_clock; webhook := Responded 200 |} in
  main e w = {| run_outcome := Raised AttributeError; run_world := w;
                run_events := [] |}.
Proof.
  intros w e.
  destruct (broken_state_is_fatal e w Samples.steady_then_drop) as (H & _).
  - reflexivity.
  - vm_compute. discriminate.
  - apply H. reflexivity.
Defined.

(** X8.  An invocation reads the state document only for its cursor: two
    worlds with the same table whose state documents yield the same cursor
    give the same outcome and print and post the same; so no state file, an
    unreadable one and an object without a cursor all behave as cursor 0.
    When the invocation returns, the document it stores is the one it loaded
    with the cursor replaced: every other key keeps its value. *)
Theorem state_only_cursor_matters (e : env) (w1 w2 : world) :
  data w1 = data w2 ->
  state_cursor (load_state (state w1)) = state_cursor (load_state (state w2)) ->
  run_outcome (main e w1) = run_outcome (main e w2)
  /\ run_events (main e w1) = run_events (main e w2)
  /\ (state_cursor (load_state NoStateFile) = Ok 0
      /\ state_cursor (load_state Unreadable) = Ok 0
      /\ forall d, d !! "cursor"%string = None ->
           state_cursor (load_state (Stored (JObject d))) = Ok 0)
  /\ (run_outcome (main e w1) = Returned ->
      exists d c table,
        load_state (state w1) = JObject d
        /\ state_cursor (JObject d) = Ok c
        /\ read_data (data w1) = Ok table
        /\ state (run_world (main e w1))
           = Stored (JObject
                       (<[ "cursor"%string :=
                           JInt (wrap (length (candidates_of table)) c + 1) ]>
                          d))
        /\ forall k, k <> "cursor"%string ->
             match state (run_world (main e w1)) with
             | Stored (JObject d') => d' !! k = d !! k
             | _ => False
             end).
Proof.
  intros Hd Hc.
  pose proof (evaluate_same_cursor (clock e) w1 w2 Hd Hc) as Hsame.
  split; [|split; [|split]].
  - unfold main.
    destruct (evaluate (clock e) w1), (evaluate (clock e) w2);
      simpl; try contradiction; [reflexivity | now subst].
  - unfold main.
    destruct (evaluate (clock e) w1), (evaluate (clock e) w2);
      simpl; try contradiction; [|reflexivity].
    destruct Hsame as (_ & _ & ->). reflexivity.
  - split; [reflexivity|]. split; [reflexivity|].
    intros d Hk. simpl. now rewrite Hk.
  - intros Hret. clear Hsame.
    destruct (main_Returned e w1 Hret) as (ev & Hev & Hmain).
    pose proof Hev as Hinv.
    apply evaluate_Ok_iff in Hinv as (t & c & day & sg & ls & H). simpl in H.
    destruct H as (Ht & _ & Hcur & _ & _ & _ & _ & Heq).
    destruct (load_state (state w1)) as [d|] eqn:El; [|discriminate Hcur].
    exists d, c, t. split; [reflexivity|]. split; [exact Hcur|].
    split; [exact Ht|].
    rewrite Hmain. simpl. unfold persist, save_state.
    rewrite Heq. simpl. split; [reflexivity|].
    intros k Hk. now rewrite lookup_insert_ne.
Qed.

Lemma state_only_cursor_matters_witness :
  let e := {| clock := Samples.one_o_clock; webhook := Responded 200 |} in
  run_events (main e (Samples.sample_world Unreadable))
  = run_events (main e (Samples.sample_world (Samples.cursor_file 0))).
Proof.
  intros e.
  destruct (state_only_cursor_matters e (Samples.sample_world Unreadable)
              (Samples.sample_world (Samples.cursor_file 0)))
    as (_ & H & _); [reflexivity | reflexivity | exact H].
Defined.



(** ** Successive invocations *)

Section Successive.

Implicit Types (w : world) (e : env) (es : list env).




End Successive.





(** X12.  The payload of an invocation describes one eligible day: the row
    evaluated is the eligible day at the cursor in the payload, its date is
    the payload's date and lies on or after SIM_START_DATE, the signals are
    those of the row, signals_count is their number, and the status is
    anomaly_detected exactly when there is a signal. *)
Theorem payload_describes_an_eligible_day (now : timestamp) (w : world)
    (ev : evaluation) :
  evaluate now w = Ok ev ->
  let p := ev_payload ev in
  (exists table,
     read_data (data w) = Ok table
     /\ ev_row ev ∈ candidates_of table
     /\ iloc (candidates_of table) (sim_cursor p) = Ok (ev_row ev))
  /\ (exists d, date (today (ev_row ev)) = Some d
                /\ p_date p = strftime d /\ SIM_START_DATE <= d)
  /\ detect_signals (ev_row ev) = Ok (signals p)
  /\ signals_count p = length (signals p)
  /\ (p_status p = Normal <-> signals p = [])
  /\ (p_status p = Anomaly_detected <-> signals p <> [])
  /\ run_time p = isoformat now.
Proof.
  intros Hev p. subst p.
  apply evaluate_Ok_iff in Hev as (table & c & d & sigs & lines & H).
  simpl in H. destruct H as (Ht & Hne & Hc & Hrow & Hd & Hs & Hl & ->). simpl.
  assert (Hin : ev_row ev ∈ candidates_of table).
  { unfold iloc in Hrow. destruct (_ || _); [discriminate|].
    destruct (candidates_of table !! _) eqn:E; [|discriminate].
    injection Hrow as <-. apply list_elem_of_lookup. eauto. }
  split; [exists table; auto|].
  split.
  { destruct (candidates_eligible table _ Hin) as (_ & d' & Hd' & Hsim).
    rewrite Hd in Hd'. injection Hd' as <-. eauto. }
  split; [exact Hs|]. split; [reflexivity|].
  destruct sigs; simpl; repeat split; congruence.
Qed.

Lemma payload_describes_an_eligible_day_witness :
  exists ev,
    evaluate Samples.one_o_clock (Samples.sample_world NoStateFile) = Ok ev
    /\ p_status (ev_payload ev) = Anomaly_detected
    /\ signals (ev_payload ev) <> [].
Proof.
  destruct (evaluate Samples.one_o_clock (Samples.sample_world NoStateFile))
    as [ev|x] eqn:E; [|vm_compute in E; discriminate E].
  destruct (payload_describes_an_eligible_day _ _ ev E)
    as (_ & _ & _ & _ & _ & Ha & _).
  exists ev. split; [reflexivity|].
  assert (Hs : p_status (ev_payload ev) = Anomaly_detected).
  { vm_compute in E. injection E as <-. reflexivity. }
  split; [exact Hs | now apply Ha].
Defined.

(** ** The aggregator, day by day *)

Section DayByDay.

Import Kpi.

Implicit Types (orders : list order) (d : Z) (keyed : list (pyfloat * Z)).

Lemma fillna0_idem (a : pyfloat) : fillna0 (fillna0 a) = fillna0 a.
Proof. destruct a; reflexivity. Qed.

Lemma fsum_filled (vs : list pyfloat) :
  fsum (fillna0 <$> vs) = fin (foldr Qplus 0%Q (default 0%Q <$> vs)).
Proof.
  induction vs as [|v t IH]; [reflexivity|].
  rewrite !fmap_cons. simpl. rewrite IH. destruct v; reflexivity.
Qed.

Lemma day_total_filled keyed d :
  fillna0 (Daily.day_total keyed d) = Daily.day_total keyed d.
Proof. unfold Daily.day_total. now rewrite fsum_filled. Qed.

Lemma find_key (f : Z -> pyfloat) (ks : list Z) d :
  List.find (fun kv : Z * pyfloat => fst kv =? d) ((fun k => (k, f k)) <$> ks)
  = if bool_decide (d ∈ ks) then Some (d, f d) else None.
Proof.
  induction ks as [|k t IH]; [reflexivity|].
  rewrite fmap_cons. simpl. destruct (Z.eqb_spec k d) as [->|Hne].
  - rewrite bool_decide_eq_true_2 by left. reflexivity.
  - rewrite IH. destruct (bool_decide (d ∈ t)) eqn:E.
    + rewrite bool_decide_eq_true_2; [reflexivity|].
      right. now apply bool_decide_eq_true in E.
    + rewrite bool_decide_eq_false_2; [reflexivity|].
      apply bool_decide_eq_false in E. intros H.
      apply elem_of_cons in H as [H|H]; congruence.
Qed.

(** The left merge with a grouped sum, after [fillna(0)], is the day's
    total: 0 for a day without rows. *)
Lemma lookup_group_sum keyed d :
  fillna0 (lookup_day d (group_sum keyed)) = Daily.day_total keyed d.
Proof.
  unfold lookup_day, group_sum.
  rewrite (find_key (fun k => fsum (fillna0 <$> (fst <$> filter
             (fun kv => bool_decide (snd kv = k)) keyed)))).
  case_bool_decide as Hin; simpl.
  - apply day_total_filled.
  - unfold Daily.day_total.
    rewrite (filter_none _ keyed); [reflexivity|].
    intros kv Hkv Hk. apply bool_decide_unpack in Hk. apply Hin.
    apply (proj2 (elem_of_group_keys _ _)), list_elem_of_fmap.
    exists kv. split; [now symmetry | exact Hkv].
Qed.

Lemma merge_inner_dates {A : Type} (key : A -> option string) (left : list A)
    orders (a : A) d :
  (a, d) ∈ merge_inner key left orders -> d ∈ purchase_days orders.
Proof.
  intros H. apply list_elem_of_In in H. unfold merge_inner in H.
  apply in_flat_map in H as (a' & _ & H).
  apply in_flat_map in H as (o & Ho & H).
  apply elem_of_purchase_days. exists o.
  split; [now apply list_elem_of_In|].
  case_bool_decide; [|destruct H].
  destruct (purchase_date o) as [d'|]; [|destruct H].
  destruct H as [[= _ ->]|[]]. reflexivity.
Qed.

(** A day without orders has no joined rows, hence a total of 0. *)
Lemma day_total_no_orders {A : Type} (key : A -> option string) (left : list A)
    (value : A -> pyfloat) orders d :
  d ∉ purchase_days orders ->
  Daily.day_total ((fun ad => (value (fst ad), snd ad))
                     <$> merge_inner key left orders) d = fin 0.
Proof.
  intros Hd. unfold Daily.day_total.
  rewrite filter_none; [reflexivity|].
  intros kv Hkv Hk. apply bool_decide_unpack in Hk.
  apply list_elem_of_fmap in Hkv as ([a d'] & -> & Hin). simpl in Hk. subst d'.
  apply Hd. eapply merge_inner_dates. exact Hin.
Qed.

Lemma orders_on_no_orders orders d :
  d ∉ purchase_days orders -> Daily.orders_on d orders = [].
Proof.
  intros Hd. unfold Daily.orders_on. apply filter_none.
  intros o Ho Hp. apply bool_decide_unpack in Hp. apply Hd.
  apply elem_of_purchase_days. eauto.
Qed.

(** The fields of a row of the exported table, from the records of its
    day. *)
Lemma final_row_anatomy orders (items : list item)
    (payments_file : option (list payment)) (range : list Z) (r : daily_row) :
  let rp := (fun p => daily_revenue_payments p orders) <$> payments_file in
  r ∈ (recompute_aov
         <$> (fill_zeros (bool_decide (is_Some payments_file))
                <$> reindex range
                      (Kpi.sort_values
                         (combine orders (daily_revenue_items items orders) rp)))) ->
  let group := Daily.orders_on (date r) orders in
  orders_count r = of_Z (Z.of_nat (length (remove_dups (omap order_id group))))
  /\ canceled_orders r
     = of_Z (Z.of_nat (length (filter (fun o => is_canceled o) group)))
  /\ revenue_items r = Daily.day_total (Daily.keyed_items items orders) (date r)
  /\ match payments_file with
     | Some payments =>
         revenue_payments r
         = Daily.day_total (Daily.keyed_payments payments orders) (date r)
         /\ revenue r = revenue_payments r
     | None => revenue_payments r = nan /\ revenue r = revenue_items r
     end.
Proof.
  intros rp H. apply list_elem_of_fmap in H as (r1 & -> & H).
  apply list_elem_of_fmap in H as (r0 & -> & H).
  apply reindex_row in H as [H|[H Hno]].
  - apply (proj1 (elem_of_sort_values _ _)) in H.
    unfold combine in H. apply list_elem_of_fmap in H as (d & -> & _).
    simpl. split; [reflexivity|]. split; [reflexivity|].
    split; [apply lookup_group_sum|].
    subst rp. destruct payments_file as [payments|]; simpl.
    + rewrite fillna0_idem.
      split; [apply lookup_group_sum | reflexivity].
    + split; [reflexivity | apply fillna0_idem].
  - assert (Hd : date r0 ∉ purchase_days orders).
    { intros Hin. apply Hno. apply daily_dates. exact Hin. }
    rewrite H. simpl.
    rewrite (orders_on_no_orders orders _ Hd). simpl.
    split; [reflexivity|]. split; [reflexivity|].
    unfold Daily.keyed_items, Daily.keyed_payments.
    rewrite (day_total_no_orders item_order_id items item_revenue orders _ Hd).
    split; [reflexivity|].
    destruct payments_file as [payments|]; simpl; [|split; reflexivity].
    rewrite (day_total_no_orders payment_order_id payments payment_value
               orders _ Hd).
    split; reflexivity.
Qed.

Lemma build_row_fields orders (items : list item)
    (payments_file : option (list payment)) (tbl : kpi_table) (r : daily_row) :
  build_daily_kpi (Some orders) (Some items) payments_file = Ok tbl ->
  r ∈ out_rows tbl ->
  let valid := dropna_timestamp orders in
  let group := Daily.orders_on (date r) valid in
  orders_count r = of_Z (Z.of_nat (length (remove_dups (omap order_id group))))
  /\ canceled_orders r
     = of_Z (Z.of_nat (length (filter (fun o => is_canceled o) group)))
  /\ revenue_items r = Daily.day_total (Daily.keyed_items items valid) (date r)
  /\ match payments_file with
     | Some payments =>
         revenue_payments r
         = Daily.day_total (Daily.keyed_payments payments valid) (date r)
         /\ revenue r = revenue_payments r
     | None => revenue_payments r = nan /\ revenue r = revenue_items r
     end.
Proof.
  intros Htbl Hr valid group.
  destruct (build_daily_kpi_Ok _ _ _ _ Htbl)
    as (orders' & items' & lo & hi & H).
  simpl in H. destruct H as (Eo & Ei & _ & _ & Erows).
  injection Eo as <-. injection Ei as <-.
  rewrite Erows in Hr.
  exact (final_row_anatomy valid items payments_file _ r Hr).
Qed.

End DayByDay.



Section Outcomes.

Import Kpi.

Lemma dropna_nil_iff (orders : list order) :
  dropna_timestamp orders = [] <-> purchase_days orders = [].
Proof.
  rewrite <- purchase_days_dropna. unfold dropna_timestamp, purchase_days.
  split; [intros ->; reflexivity|].
  destruct (filter _ orders) as [|o t] eqn:E; [reflexivity|].
  assert (Ho : o ∈ filter (fun o => is_Some (order_purchase_timestamp o)) orders)
    by (rewrite E; left).
  apply list_elem_of_filter in Ho as [[ts Hts] _].
  simpl. unfold purchase_date at 1. rewrite Hts. discriminate.
Qed.

End Outcomes.

(** X14.  How the aggregator ends: without the orders file it raises
    FileNotFoundError; with orders none of whose purchase timestamps parses
    it raises ValueError, whether or not the items file is there; with a
    parseable timestamp and no items file it raises FileNotFoundError; with
    both it returns a table that has at least one row.  The payments file is
    optional: its absence never raises. *)
Theorem aggregator_outcomes (orders_file : option (list Kpi.order))
    (items_file : option (list Kpi.item))
    (payments_file : option (list Kpi.payment)) :
  let result := Kpi.build_daily_kpi orders_file items_file payments_file in
  (orders_file = None -> result = Raise FileNotFoundError)
  /\ (forall orders, orders_file = Some orders ->
        Kpi.purchase_days orders = [] -> result = Raise ValueError)
  /\ (forall orders, orders_file = Some orders ->
        Kpi.purchase_days orders <> [] -> items_file = None ->
        result = Raise FileNotFoundError)
  /\ (forall orders items, orders_file = Some orders ->
        Kpi.purchase_days orders <> [] -> items_file = Some items ->
        exists tbl, result = Ok tbl /\ Kpi.out_rows tbl <> []).
Proof.
  intros result. subst result.
  split; [intros ->; reflexivity|]. split; [|split].
  - intros orders -> Hnil. unfold Kpi.build_daily_kpi.
    rewrite bool_decide_eq_true_2; [reflexivity|].
    now apply dropna_nil_iff.
  - intros orders -> Hne ->. unfold Kpi.build_daily_kpi.
    rewrite bool_decide_eq_false_2; [reflexivity|].
    intros E. apply Hne. now apply dropna_nil_iff.
  - intros orders items -> Hne ->.
    destruct (Kpi.purchase_days orders) as [|d0 rest] eqn:Ed; [contradiction|].
    destruct (build_daily_kpi_returns orders items payments_file) as [tbl Htbl].
    { rewrite Ed. discriminate. }
    exists tbl. split; [exact Htbl|].
    destruct (build_daily_kpi_Ok _ _ _ _ Htbl)
      as (orders' & items' & lo & hi & H).
    simpl in H. destruct H as (Eo & _ & Emin & Emax & Erows).
    injection Eo as <-.
    set (daily := Kpi.sort_values _) in *.
    assert (Hne' : daily <> []).
    { intros E. rewrite E in Emin. discriminate Emin. }
    destruct (date_min_spec daily Hne') as (m & Hm & Hin & Hmin).
    destruct (date_max_spec daily Hne') as (M & HM & _ & Hmax).
    rewrite Emin in Hm. injection Hm as <-.
    rewrite Emax in HM. injection HM as <-.
    specialize (Hmax lo Hin).
    intros E. rewrite Erows in E.
    apply (f_equal length) in E. rewrite !length_fmap in E.
    unfold Kpi.reindex in E. rewrite length_fmap in E.
    unfold Kpi.date_range in E. rewrite length_seqZ in E. simpl in E. lia.
Qed.

Lemma aggregator_outcomes_witness :
  Kpi.build_daily_kpi (Some [ Kpi.Order (Some "c") "delivered" None ]) None None
  = Raise ValueError.
Proof.
  destruct (aggregator_outcomes (Some [ Kpi.Order (Some "c") "delivered" None ])
              None None) as (_ & H & _).
  apply (H [ Kpi.Order (Some "c") "delivered" None ]); reflexivity.
Defined.

Section Survivors.

Import Kpi.



End Survivors.



Section Counts.

Import Kpi.

Lemma remove_dups_length_le (l : list string) :
  (length (remove_dups l) <= length l)%nat.
Proof.
  induction l as [|x t IH]; simpl; [lia|].
  destruct (decide_rel elem_of x t); simpl; lia.
Qed.

Lemma remove_dups_NoDup (l : list string) : NoDup l -> remove_dups l = l.
Proof.
  induction 1 as [|x t Hx _ IH]; simpl; [reflexivity|].
  destruct (decide_rel elem_of x t); [contradiction|]. now rewrite IH.
Qed.

Lemma NoDup_fmap_filter {A B : Type} (f : A -> B) (P : A -> Prop)
    `{!forall x, Decision (P x)} (l : list A) :
  NoDup (f <$> l) -> NoDup (f <$> filter P l).
Proof.
  induction l as [|x t IH]; [intros; constructor|].
  rewrite fmap_cons. intros Hnd. apply NoDup_cons in Hnd as [Hx Ht].
  destruct (decide (P x)) as [Hp|Hp].
  - rewrite filter_cons_True by exact Hp. rewrite fmap_cons.
    apply NoDup_cons. split; [|now apply IH].
    intros Hin. apply Hx. apply list_elem_of_fmap in Hin as (y & -> & Hy).
    apply list_elem_of_fmap_2. apply list_elem_of_filter in Hy as [_ Hy].
    exact Hy.
  - rewrite filter_cons_False by exact Hp. now apply IH.
Qed.

Lemma length_omap_le {A B : Type} (f : A -> option B) (l : list A) :
  (length (omap f l) <= length l)%nat.
Proof.
  induction l as [|x t IH]; [reflexivity|].
  change (omap f (x :: t))
    with (match f x with Some y => y :: omap f t | None => omap f t end).
  destruct (f x); cbn [length]; lia.
Qed.

Lemma omap_all_Some {A B : Type} (f : A -> option B) (l : list A) :
  Forall (fun x => is_Some (f x)) l -> Some <$> omap f l = f <$> l.
Proof.
  induction 1 as [|x t [y Hy] _ IH]; [reflexivity|].
  change (omap f (x :: t))
    with (match f x with Some y => y :: omap f t | None => omap f t end).
  rewrite Hy, !fmap_cons, IH, Hy. reflexivity.
Qed.

End Counts.

(** X16.  In every exported row canceled_orders and orders_count are both at
    most the number of order rows of that day; when the orders with a
    parseable timestamp all carry an order_id and these are pairwise
    distinct, orders_count is that number and
    canceled_orders <= orders_count.  (With an id on several rows the count
    of distinct ids can fall below the count of canceled rows.) *)
Theorem canceled_within_orders (orders : list Kpi.order) (items : list Kpi.item)
    (payments_file : option (list Kpi.payment)) (tbl : Kpi.kpi_table)
    (r : Kpi.daily_row) :
  Kpi.build_daily_kpi (Some orders) (Some items) payments_file = Ok tbl ->
  r ∈ Kpi.out_rows tbl ->
  let valid := Kpi.dropna_timestamp orders in
  let rows := length (Daily.orders_on (Kpi.date r) valid) in
  exists n c : nat,
    Kpi.orders_count r = of_Z (Z.of_nat n)
    /\ Kpi.canceled_orders r = of_Z (Z.of_nat c)
    /\ (n <= rows)%nat
    /\ (c <= rows)%nat
    /\ (NoDup (Kpi.order_id <$> valid) ->
        Forall (fun o => is_Some (Kpi.order_id o)) valid ->
        n = rows /\ (c <= n)%nat).
Proof.
  intros Htbl Hr valid rows.
  destruct (build_row_fields orders items payments_file tbl r Htbl Hr)
    as (Hn & Hc & _).
  fold valid in Hn, Hc.
  set (group := Daily.orders_on (Kpi.date r) valid) in *.
  exists (length (remove_dups (omap Kpi.order_id group))),
         (length (filter (fun o => Kpi.is_canceled o) group)).
  split; [exact Hn|]. split; [exact Hc|].
  assert (Hle : (length (remove_dups (omap Kpi.order_id group)) <= rows)%nat).
  { etransitivity; [apply remove_dups_length_le|].
    subst rows. apply length_omap_le. }
  assert (Hcl : (length (filter (fun o => Kpi.is_canceled o) group) <= rows)%nat)
    by apply length_filter.
  split; [exact Hle|]. split; [exact Hcl|].
  intros Hnd Hids.
  assert (Hsome : Some <$> omap Kpi.order_id group = Kpi.order_id <$> group).
  { apply omap_all_Some. subst group. unfold Daily.orders_on.
    rewrite Forall_forall in Hids. apply Forall_forall. intros o Ho.
    apply list_elem_of_filter in Ho as [_ Ho]. exact (Hids o Ho). }
  assert (Hgroup : NoDup (Kpi.order_id <$> group)).
  { subst group. unfold Daily.orders_on. now apply NoDup_fmap_filter. }
  rewrite <- Hsome in Hgroup. apply (NoDup_fmap_1 Some) in Hgroup.
  rewrite (remove_dups_NoDup _ Hgroup).
  apply (f_equal length) in Hsome. rewrite !length_fmap in Hsome.
  rewrite Hsome. split; [reflexivity | exact Hcl].
Qed.

Lemma canceled_within_orders_witness :
  exists tbl,
    Kpi.build_daily_kpi (Some Samples.some_orders) (Some Samples.some_items) None
    = Ok tbl
    /\ forall r, r ∈ Kpi.out_rows tbl ->
         exists n c : nat,
           Kpi.orders_count r = of_Z (Z.of_nat n)
           /\ Kpi.canceled_orders r = of_Z (Z.of_nat c)
           /\ (c <= length (Daily.orders_on (Kpi.date r)
                              (Kpi.dropna_timestamp Samples.some_orders)))%nat.
Proof.
  destruct (Kpi.build_daily_kpi (Some Samples.some_orders)
              (Some Samples.some_items) None) as [tbl|x] eqn:E;
    [|vm_compute in E; discriminate E].
  exists tbl. split; [reflexivity|]. intros r Hr.
  destruct (canceled_within_orders Samples.some_orders Samples.some_items None
              tbl r E Hr) as (n & c & Hn & Hc & _ & Hle & _).
  exists n, c. auto.
Defined.

(** An order id on two rows, both canceled: one order, two cancellations. *)
Example duplicate_id_canceled_twice :
  exists tbl,
    Kpi.build_daily_kpi
      (Some [ Kpi.Order (Some "a") "canceled" (Some (Timestamp 100 5));
              Kpi.Order (Some "a") "canceled" (Some (Timestamp 100 9)) ]%string)
      (Some []) None = Ok tbl
    /\ Kpi.orders_count <$> Kpi.out_rows tbl = [ fin 1 ]
    /\ Kpi.canceled_orders <$> Kpi.out_rows tbl = [ fin 2 ].
Proof. eexists. vm_compute. repeat split. Qed.

Section Conservation.

Import Kpi.

Implicit Types (keyed : list (pyfloat * Z)) (L : list Z).







End Conservation.

Section ConservedRevenue.

Import Kpi.



End ConservedRevenue.



(** ** The trigger service *)

Section Tails.

Lemma length_append (s t : string) :
  String.length (String.append s t) = (String.length s + String.length t)%nat.
Proof. induction s as [|a s IH]; simpl; [reflexivity | now rewrite IH]. Qed.

Lemma drop_chars_spec (k : nat) : forall s : string,
  exists pre : string,
    s = String.append pre (Service.drop_chars k s)
    /\ String.length pre = Nat.min k (String.length s).
Proof.
  induction k as [|k IH]; intros s.
  - exists EmptyString. split; reflexivity.
  - destruct s as [|a t].
    + exists EmptyString. split; reflexivity.
    + destruct (IH t) as (pre & Ht & Hlen).
      exists (String a pre). split.
      * change (String a t
                = String a (String.append pre (Service.drop_chars k t))).
        f_equal. exact Ht.
      * cbn [String.length]. rewrite Hlen. reflexivity.
Qed.

(** [s[-n:]] is the end of [s], [n] characters long unless [s] is shorter. *)
Lemma last_chars_spec (n : nat) (s : string) :
  (exists pre : string, s = String.append pre (Service.last_chars n s))
  /\ String.length (Service.last_chars n s) = Nat.min n (String.length s).
Proof.
  unfold Service.last_chars.
  destruct (drop_chars_spec (String.length s - n) s) as (pre & Hs & Hlen).
  split; [exists pre; exact Hs|].
  apply (f_equal String.length) in Hs. rewrite length_append in Hs. lia.
Qed.

Lemma last_chars_short (n : nat) (s : string) :
  (String.length s <= n)%nat -> Service.last_chars n s = s.
Proof.
  intros H. unfold Service.last_chars.
  replace (String.length s - n)%nat with 0%nat by lia. reflexivity.
Qed.

End Tails.

(** X18.  The token check of /run.  A request whose X-OPS-TOKEN header (a
    missing header counting as the empty string) differs from the configured
    token is answered 401 "unauthorized" and the script is not started: the
    files stay as they were.  A request with the right token always starts
    the script and is never answered 401.  With OPS_AGENT_TOKEN unset the
    right token is the built-in kiren-ops-123; a request without the header
    passes exactly when OPS_AGENT_TOKEN is set to the empty string. *)
Theorem run_checks_token {files : Type}
    (script : files -> Service.subprocess_result * files)
    (environ : gmap string string) (header : option string) (w : files) :
  let sent := default EmptyString header in
  (sent <> Service.TOKEN environ ->
   Service.run script environ header w
   = (Service.Response 401 Service.B_unauthorized, w))
  /\ (sent = Service.TOKEN environ ->
      snd (Service.run script environ header w) = snd (script w)
      /\ forall b, fst (Service.run script environ header w)
                   <> Service.Response 401 b)
  /\ (environ !! "OPS_AGENT_TOKEN"%string = None ->
      (sent = Service.TOKEN environ <-> header = Some "kiren-ops-123"%string))
  /\ (header = None ->
      (sent = Service.TOKEN environ
       <-> environ !! "OPS_AGENT_TOKEN"%string = Some EmptyString)).
Proof.
  intros sent. unfold Service.run. fold sent.
  split; [|split; [|split]].
  - intros Hne. apply String.eqb_neq in Hne. now rewrite Hne.
  - intros Heq. apply String.eqb_eq in Heq. rewrite Heq. simpl.
    destruct (script w) as [[p|] w']; simpl; (split; [reflexivity|]);
      intros b; discriminate.
  - intros Hunset. unfold Service.TOKEN. rewrite Hunset. subst sent. simpl.
    destruct header as [h|]; simpl.
    + split; [now intros -> | now intros [= ->]].
    + split; discriminate.
  - intros ->. subst sent. unfold Service.TOKEN. simpl.
    destruct (environ !! "OPS_AGENT_TOKEN"%string) as [t|]; simpl.
    + split; [now intros <- | now intros [= ->]].
    + split; discriminate.
Qed.

Lemma run_checks_token_witness :
  EmptyString <> Service.TOKEN ∅
  /\ Service.run (fun w : Z => (Service.TimeoutExpired, w + 1)) ∅ None 7
     = (Service.Response 401 Service.B_unauthorized, 7)
  /\ snd (Service.run (fun w : Z => (Service.TimeoutExpired, w + 1))
            {[ "OPS_AGENT_TOKEN"%string := EmptyString ]} None 7) = 8.
Proof.
  assert (Hne : EmptyString <> Service.TOKEN ∅) by (vm_compute; discriminate).
  split; [exact Hne|]. split.
  - exact (proj1 (run_checks_token (fun w : Z => (Service.TimeoutExpired, w + 1))
                    ∅ None 7) Hne).
  - assert (Heq : default EmptyString None
                  = Service.TOKEN {[ "OPS_AGENT_TOKEN"%string := EmptyString ]})
      by (vm_compute; reflexivity).
    exact (proj1 (proj1 (proj2 (run_checks_token
                                  (fun w : Z => (Service.TimeoutExpired, w + 1))
                                  {[ "OPS_AGENT_TOKEN"%string := EmptyString ]}
                                  None 7)) Heq)).
Defined.

(** X19.  What an authorised /run reports.  When the script finishes, the
    answer is 200 with the script's exit status whatever it is, and with the
    ends of its two output streams: each reported text is the last part of
    the stream, 4000 characters long unless the stream is shorter, in which
    case it is the whole stream.  When the script is still running after the
    timeout, the exception is not caught: the view gives no JSON answer. *)
Theorem run_reports_output_tails {files : Type}
    (script : files -> Service.subprocess_result * files)
    (environ : gmap string string) (header : option string) (w w' : files) :
  default EmptyString header = Service.TOKEN environ ->
  (forall p, script w = (Service.Completed p, w') ->
     exists out err : string,
       Service.run script environ header w
       = (Service.Response 200
            (Service.B_report (Service.returncode p) out err), w')
       /\ (exists pre, Service.stdout p = String.append pre out)
       /\ String.length out = Nat.min 4000 (String.length (Service.stdout p))
       /\ (exists pre, Service.stderr p = String.append pre err)
       /\ String.length err = Nat.min 4000 (String.length (Service.stderr p))
       /\ ((String.length (Service.stdout p) <= 4000)%nat ->
           out = Service.stdout p)
       /\ ((String.length (Service.stderr p) <= 4000)%nat ->
           err = Service.stderr p))
  /\ (script w = (Service.TimeoutExpired, w') ->
      Service.run script environ header w = (Service.Unhandled, w')).
Proof.
  intros Heq. apply String.eqb_eq in Heq. unfold Service.run. rewrite Heq.
  cbn [negb]. split.
  - intros p ->.
    exists (Service.last_chars 4000 (Service.stdout p)),
           (Service.last_chars 4000 (Service.stderr p)).
    split; [reflexivity|].
    destruct (last_chars_spec 4000 (Service.stdout p)) as [Ho1 Ho2].
    destruct (last_chars_spec 4000 (Service.stderr p)) as [He1 He2].
    split; [exact Ho1|]. split; [exact Ho2|].
    split; [exact He1|]. split; [exact He2|].
    split; apply last_chars_short.
  - intros ->. reflexivity.
Qed.

Lemma run_reports_output_tails_witness :
  exists out err : string,
    Service.run
      (fun w : Z =>
         (Service.Completed
            (Service.CompletedProcess 3 "printed"%string EmptyString), w + 1))
      ∅ (Some "kiren-ops-123"%string) 7
    = (Service.Response 200 (Service.B_report 3 out err), 8)
    /\ out = "printed"%string.
Proof.
  pose (p := Service.CompletedProcess 3 "printed"%string EmptyString).
  pose (script := fun w : Z => (Service.Completed p, w + 1)).
  assert (Heq : default EmptyString (Some "kiren-ops-123"%string)
                = Service.TOKEN ∅) by (vm_compute; reflexivity).
  destruct (proj1 (run_reports_output_tails script ∅
                     (Some "kiren-ops-123"%string) 7 8 Heq) p eq_refl)
    as (out & err & Hrun & _ & _ & _ & _ & Hout & _).
  exists out, err. split; [exact Hrun|].
  apply Hout. apply Nat.leb_le. vm_compute. reflexivity.
Defined.

(** ** The percentages in the signal texts *)

Section Percentages.

Local Open Scope string_scope.

Lemma rint_floor (q : Q) : rint q = Qfloor q \/ rint q = Qfloor q + 1.
Proof.
  unfold rint. destruct (_ ?= _)%Q; [destruct (Z.even _)| |]; auto.
Qed.

(** Rounding to an integer never crosses an integer. *)
Lemma rint_ge (q : Q) (k : Z) : (inject_Z k <= q)%Q -> k <= rint q.
Proof.
  intros H. apply Qfloor_resp_le in H. rewrite Qfloor_Z in H.
  destruct (rint_floor q) as [-> | ->]; lia.
Qed.

Lemma rint_le (q : Q) (k : Z) : (q <= inject_Z k)%Q -> rint q <= k.
Proof.
  intros H. pose proof (Qfloor_le q) as Hf.
  assert (Hfk : Qfloor q <= k) by (rewrite Zle_Qle; lra).
  destruct (Z.eq_dec (Qfloor q) k) as [E|NE].
  - unfold rint. rewrite E.
    assert (Hlt : (q - inject_Z k < 1 # 2)%Q) by lra.
    pose proof (proj1 (Qlt_alt _ _) Hlt) as Hc. cbv zeta. rewrite Hc.
    reflexivity.
  - destruct (rint_floor q) as [-> | ->]; lia.
Qed.

Lemma drop_rule_percent (m : metric) (label : string) (medium high : Q)
    (km kh : Z) (change : pyfloat) (l : list signal) (s : signal) :
  (medium * 100 == inject_Z km)%Q -> (high * 100 == inject_Z kh)%Q ->
  (0 < medium)%Q ->
  drop_rule m label medium high change = Ok l -> s ∈ l ->
  exists p : Z,
    sig_metric s = m
    /\ sig_details s = label ++ " " ++ str_of_Z p ++ vs_avg
    /\ p <= - km
    /\ (sig_severity s = High -> p <= - kh)
    /\ (sig_severity s = Medium -> - kh <= p).
Proof.
  intros Hm Hh Hpos.
  destruct change as [x|];
    [|intros [= <-] Hs; apply elem_of_nil in Hs; contradiction].
  rewrite drop_rule_number. intros [= <-] Hs.
  destruct (Qle_bool x (- medium)) eqn:E;
    [|apply elem_of_nil in Hs; contradiction].
  apply list_elem_of_singleton in Hs. subst s. cbn [sig_metric sig_details sig_severity].
  apply Qle_bool_iff in E.
  exists (rint (x * 100)). split; [reflexivity|]. split; [reflexivity|].
  assert (Habs : (Qabs x == - x)%Q) by (apply Qabs_neg; lra).
  split; [apply rint_le; rewrite inject_Z_opp; lra|].
  destruct (Qle_bool high (Qabs x)) eqn:F.
  - apply Qle_bool_iff in F. rewrite Habs in F.
    split; [|discriminate].
    intros _. apply rint_le. rewrite inject_Z_opp. lra.
  - assert (Hlt : (Qabs x < high)%Q).
    { apply Qnot_le_lt. intros H. apply Qle_bool_iff in H. congruence. }
    rewrite Habs in Hlt.
    split; [discriminate|].
    intros _. apply rint_ge. rewrite inject_Z_opp. lra.
Qed.

Lemma spike_rule_percent (change : pyfloat) (l : list signal) (s : signal) :
  spike_rule change = Ok l -> s ∈ l ->
  exists p : Z,
    sig_metric s = M_canceled_orders
    /\ sig_details s = "Cancellations +" ++ str_of_Z p ++ vs_avg
    /\ 60 <= p
    /\ (sig_severity s = High -> 120 <= p)
    /\ (sig_severity s = Medium -> p <= 120).
Proof.
  destruct change as [x|];
    [|intros [= <-] Hs; apply elem_of_nil in Hs; contradiction].
  rewrite spike_rule_number. intros [= <-] Hs.
  destruct (Qle_bool TH.cancel_spike_medium x) eqn:E;
    [|apply elem_of_nil in Hs; contradiction].
  apply list_elem_of_singleton in Hs. subst s. cbn [sig_metric sig_details sig_severity].
  apply Qle_bool_iff in E. unfold TH.cancel_spike_medium in E.
  exists (rint (x * 100)). split; [reflexivity|]. split; [reflexivity|].
  split; [apply rint_ge; change (inject_Z 60) with (60 # 1)%Q; lra|].
  destruct (Qle_bool TH.cancel_spike_high x) eqn:F.
  - apply Qle_bool_iff in F. unfold TH.cancel_spike_high in F.
    split; [|discriminate].
    intros _. apply rint_ge. change (inject_Z 120) with (120 # 1)%Q. lra.
  - assert (Hlt : (x < TH.cancel_spike_high)%Q).
    { apply Qnot_le_lt. intros H. apply Qle_bool_iff in H. congruence. }
    unfold TH.cancel_spike_high in Hlt.
    split; [discriminate|].
    intros _. apply rint_le. change (inject_Z 120) with (120 # 1)%Q. lra.
Qed.

End Percentages.

(** X21.  The percentage a signal's text shows is in keeping with its
    severity.  Every signal's details are its metric's label, an integer p
    and "% vs 7-day avg".  For a drop signal p is negative: at most -15 for
    revenue and the average order value (-12 for orders); at most -25 (-20)
    when the severity is high and at least -25 (-20) when it is medium.  For
    a cancellation signal, whose text puts a plus sign before p, p is at
    least 60; at least 120 when high and at most 120 when medium. *)
Theorem details_show_the_change (row : baseline_row) (sigs : list signal)
    (s : signal) :
  detect_signals row = Ok sigs -> s ∈ sigs ->
  exists p : Z,
    sig_details s
    = String.append
        match sig_metric s with
        | M_revenue => "Revenue "
        | M_orders => "Orders "
        | M_avg_order_value => "AOV "
        | M_canceled_orders => "Cancellations +"
        end%string
        (String.append (str_of_Z p) "% vs 7-day avg"%string)
    /\ match sig_metric s, sig_severity s with
       | M_revenue, Medium | M_avg_order_value, Medium => -25 <= p <= -15
       | M_revenue, High | M_avg_order_value, High => p <= -25
       | M_orders, Medium => -20 <= p <= -12
       | M_orders, High => p <= -20
       | M_canceled_orders, Medium => 60 <= p <= 120
       | M_canceled_orders, High => 120 <= p
       end.
Proof.
  intros Hsigs Hs.
  destruct (detect_signals_parts row)
    as (rc & oc & ac & cc & s_rev & s_ord & s_aov & s_can & H).
  destruct H as (_ & _ & _ & _ & Hrev & Hord & Haov & Hcan & Hall & _).
  rewrite Hall in Hsigs. injection Hsigs as <-.
  apply elem_of_app in Hs as [Hs|Hs];
    [|apply elem_of_app in Hs as [Hs|Hs];
      [|apply elem_of_app in Hs as [Hs|Hs]]].
  - destruct (drop_rule_percent M_revenue "Revenue"%string
                TH.revenue_drop_medium TH.revenue_drop_high 15 25 rc s_rev s
                eq_refl eq_refl eq_refl Hrev Hs) as (p & Hm & Hd & Hp & Hhigh & Hmed).
    exists p. rewrite Hm, Hd. split; [reflexivity|].
    destruct (sig_severity s); [specialize (Hmed eq_refl)
                               | specialize (Hhigh eq_refl)]; lia.
  - destruct (drop_rule_percent M_orders "Orders"%string
                TH.orders_drop_medium TH.orders_drop_high 12 20 oc s_ord s
                eq_refl eq_refl eq_refl Hord Hs) as (p & Hm & Hd & Hp & Hhigh & Hmed).
    exists p. rewrite Hm, Hd. split; [reflexivity|].
    destruct (sig_severity s); [specialize (Hmed eq_refl)
                               | specialize (Hhigh eq_refl)]; lia.
  - destruct (drop_rule_percent M_avg_order_value "AOV"%string
                TH.aov_drop_medium TH.aov_drop_high 15 25 ac s_aov s
                eq_refl eq_refl eq_refl Haov Hs) as (p & Hm & Hd & Hp & Hhigh & Hmed).
    exists p. rewrite Hm, Hd. split; [reflexivity|].
    destruct (sig_severity s); [specialize (Hmed eq_refl)
                               | specialize (Hhigh eq_refl)]; lia.
  - destruct (spike_rule_percent _ _ s Hcan Hs)
      as (p & Hm & Hd & Hp & Hhigh & Hmed).
    exists p. rewrite Hm, Hd. split; [reflexivity|].
    destruct (sig_severity s); [specialize (Hmed eq_refl)
                               | specialize (Hhigh eq_refl)]; lia.
Qed.

Lemma details_show_the_change_witness :
  exists (sigs : list signal) (s : signal) (p : Z),
    detect_signals Samples.revenue_85_of_100 = Ok sigs
    /\ s ∈ sigs
    /\ sig_details s
       = String.append "Revenue "%string
           (String.append (str_of_Z p) "% vs 7-day avg"%string)
    /\ -25 <= p <= -15.
Proof.
  destruct (detect_signals Samples.revenue_85_of_100) as [sigs|x] eqn:E;
    [|vm_compute in E; discriminate E].
  destruct sigs as [|s rest]; [vm_compute in E; discriminate E|].
  assert (Hs : s ∈ s :: rest) by apply list_elem_of_here.
  destruct (details_show_the_change Samples.revenue_85_of_100 (s :: rest) s
              E Hs) as (p & Hd & Hp).
  exists (s :: rest), s, p. split; [reflexivity|]. split; [exact Hs|].
  vm_compute in E. injection E as <- <-.
  split; [exact Hd | exact Hp].
Defined.

(** ** The detector on the aggregator's table *)

Section AggregatorToDetector.

Implicit Types (table : list metric_row) (b : baseline_row).






End AggregatorToDetector.


